(** * aiagent: provider clients, the maker command line and the run engine

    Shallow embedding of the Go sources of shamsiai/aiagent:
    - [internal/agents] API clients ([NewAPIClient] and the six [Query]
      methods),
    - [cmd/maker] ([main]: flags, credential check, exit codes),
    - [cmd/server] ([main]: credential check, handlers, listening) and
      the script of the page it serves ([web/static/index.html]),
    - the orchestration engine (Agent, WorkerPool, EventSink), whose Go
      source is not part of the files at hand and is modelled from the
      design document. *)

From stdpp Require Import gmap strings list fin_maps.
From Stdlib Require Import ZArith Lia Ascii.

Set Warnings "-register-all,-clear-no-such-hyp".

Open Scope Z_scope.
Open Scope string_scope.

(** ** Go runtime values *)

Module Go.

(** A Go [error] value.  [fmt.Errorf] without a [%w] verb yields an
    error that only carries its text; with [%w] the result also keeps the
    wrapped cause (what [errors.Unwrap] returns). *)
Inductive error : Type :=
| errorString (s : string)
| wrapError (msg : string) (err : error).

(** [err.Error()] *)
Definition Error (e : error) : string :=
  match e with
  | errorString s => s
  | wrapError msg _ => msg
  end.

(** [fmt.Errorf(prefix + "%s", s)] *)
Definition Errorf_s (prefix s : string) : error := errorString (prefix +:+ s).

(** [fmt.Errorf(prefix + "%w", err)] *)
Definition Errorf_w (prefix : string) (err : error) : error :=
  wrapError (prefix +:+ Error err) err.

(** [errors.Unwrap] *)
Definition Unwrap (e : error) : option error :=
  match e with
  | errorString _ => None
  | wrapError _ err => Some err
  end.

(** The outcome of a library call of type [(A, error)]. *)
Inductive call (A : Type) : Type :=
| Done (a : A)
| Failed (err : error).
Arguments Done {A} a.
Arguments Failed {A} err.

(** The outcome of one of this package's functions of type [(A, error)]:
    [Ok a] is [return a, nil], [Err e] is [return "", e] (the zero value
    beside a non-nil error), [Panic] is a run-time panic (an index out of
    range, a nil pointer dereference). *)
Inductive result (A : Type) : Type :=
| Ok (a : A)
| Err (e : error)
| Panic.
Arguments Ok {A} a.
Arguments Err {A} e.
Arguments Panic {A}.

Definition bind {A B : Type} (m : result A) (k : A -> result B) : result B :=
  match m with
  | Ok a => k a
  | Err e => Err e
  | Panic => Panic
  end.

(** [x, err := f(); if err != nil { return "", err }] *)
Definition try {A : Type} (c : call A) : result A :=
  match c with
  | Done a => Ok a
  | Failed err => Err err
  end.

(** [x, err := f(); if err != nil { return "", fmt.Errorf(prefix+"%w", err) }] *)
Definition try_wrap {A : Type} (prefix : string) (c : call A) : result A :=
  match c with
  | Done a => Ok a
  | Failed err => Err (Errorf_w prefix err)
  end.

(** [l[i]]: indexing a slice panics out of range. *)
Definition index {A : Type} (l : list A) (i : nat) : result A :=
  match l !! i with
  | Some a => Ok a
  | None => Panic
  end.

(** A [time.Duration] / [int] is a signed 64-bit integer; arithmetic wraps. *)
Definition wrap64 (z : Z) : Z := (z + 2 ^ 63) mod 2 ^ 64 - 2 ^ 63.

(** [time.Second], in nanoseconds. *)
Definition Second : Z := 1000000000.

(** The line feed of ["\n"]. *)
Definition LF : string := String "010"%char EmptyString.

End Go.

Import Go.

#[global] Instance result_ret : MRet result := @Ok.
#[global] Instance result_bind : MBind result := fun A B k m => bind m k.
#[global] Instance result_fmap : FMap result := fun A B f m => bind m (fun a => Ok (f a)).

(** ** Values of [encoding/json] *)

(** What [json.Marshal] is given: strings, numbers, slices, and
    [map[string]...] objects (keyed by field name, as a Go map). *)
Inductive json : Type :=
| JString (s : string)
| JNumber (n : Z)
| JArray (l : list json)
| JObject (m : gmap string json).

(** [map[string]string{"role": role, "content": content}] *)
Definition message (role content : string) : json :=
  JObject {[ "role" := JString role; "content" := JString content ]}.

(** ** [net/http], [io] and [encoding/json] as the clients use them *)

(** A [context.Context] interface value. *)
Inductive Context : Type :=
| nilContext
| Background.

(** [http.Client]: the one field the program sets.  [Timeout] is a
    [time.Duration], a signed 64-bit count of nanoseconds. *)
Record http_Client : Type := { Timeout : Z }.

(** [http.Request], as far as the clients fill it in. *)
Record Request : Type := {
  Method : string;
  URL : string;
  Header : gmap string string;
  Body : string
}.

(** [net/textproto]: [validHeaderFieldByte], the bytes a header name may
    hold: digits, letters and the punctuation of an HTTP token. *)
Definition validHeaderFieldByte (c : ascii) : bool :=
  let n := N_of_ascii c in
  ((48 <=? n) && (n <=? 57) || (97 <=? n) && (n <=? 122)
   || (65 <=? n) && (n <=? 90))%N
  || existsb (Ascii.eqb c) (String.list_ascii_of_string "!#$%&'*+-.^_`|~").

(** The loop of [canonicalMIMEHeaderKey]: the first letter and every
    letter after a dash in upper case, every other letter in lower case;
    [upper] says whether the byte at hand follows a dash. *)
Fixpoint canonical (upper : bool) (a : string) : string :=
  match a with
  | EmptyString => EmptyString
  | String c rest =>
      let n := N_of_ascii c in
      let c :=
        if upper && (97 <=? n)%N && (n <=? 122)%N then ascii_of_N (n - 32)
        else if negb upper && (65 <=? n)%N && (n <=? 90)%N then ascii_of_N (n + 32)
        else c in
      String c (canonical (Ascii.eqb c "-") rest)
  end.

(** [textproto.CanonicalMIMEHeaderKey(s)]: a name with a byte that is
    not valid in a header name (a space among them) is returned as it
    is. *)
Definition CanonicalMIMEHeaderKey (s : string) : string :=
  if forallb validHeaderFieldByte (String.list_ascii_of_string s) then canonical true s
  else s.

(** [req.Header.Set(key, value)]: the entry is stored under the
    canonical form of the key, and replaces what was there. *)
Definition Header_Set (req : Request) (key value : string) : Request :=
  {| Method := Method req; URL := URL req;
     Header := <[ CanonicalMIMEHeaderKey key := value ]> (Header req);
     Body := Body req |}.

(** [http.Response]: the status line and what [io.ReadAll(resp.Body)]
    yields. *)
Record Response : Type := {
  StatusCode : Z;
  ReadAll : call string
}.

(** The anonymous response structs the [Query] methods decode into. *)
Record apiError : Type := { err_Message : string }.

Record chatMessage : Type := { Content : string }.
Record chatChoice : Type := { Message : chatMessage }.
(** [{Choices []{Message{Content}}; Error *{Message}}] (OpenAI, Mistral,
    OpenRouter, OpenAI-compatible) *)
Record chatResponse : Type := {
  Choices : list chatChoice;
  chat_Error : option apiError
}.

Record part : Type := { Text : string }.
Record candidateContent : Type := { Parts : list part }.
Record candidate : Type := { cand_Content : candidateContent }.
(** [{Candidates []{Content{Parts []{Text}}}; Error *{Message}}] (Gemini) *)
Record geminiResponse : Type := {
  Candidates : list candidate;
  gemini_Error : option apiError
}.

(** [{Content []{Text}; Error *{Message}}] (Anthropic) *)
Record anthropicResponse : Type := {
  anthropic_Content : list part;
  anthropic_Error : option apiError
}.

(** Everything a [Query] call obtains from outside the package: the
    behaviour of the library calls and of the remote provider.  A theorem
    quantified over [World] holds whatever these do. *)
Record World : Type := {
  (** [json.Marshal(payload)] *)
  json_Marshal : json -> call string;
  (** the error, if any, of parsing a URL in [http.NewRequestWithContext] *)
  url_Parse : string -> option error;
  (** the round trip of the [Do] method of [http.Client] *)
  RoundTrip : http_Client -> Request -> call Response;
  (** [json.Unmarshal(body, &response)], one per response struct *)
  Unmarshal_chat : string -> call chatResponse;
  Unmarshal_gemini : string -> call geminiResponse;
  Unmarshal_anthropic : string -> call anthropicResponse
}.

(** [http.NewRequestWithContext(ctx, method, url, body)]: fails on a nil
    context or a URL that does not parse; otherwise the request has the
    method, URL and body given and no header yet. *)
Definition http_NewRequestWithContext (w : World) (ctx : Context)
    (method url : string) (body : string) : call Request :=
  match ctx with
  | nilContext => Failed (errorString "net/http: nil Context")
  | Background =>
      match url_Parse w url with
      | Some err => Failed err
      | None => Done {| Method := method; URL := url; Header := ∅; Body := body |}
      end
  end.

(** [resp, err := c.httpClient.Do(req)]: a nil [*http.Client] is
    dereferenced, which panics. *)
Definition httpClient_Do (w : World) (httpClient : option http_Client)
    (req : Request) : result Response :=
  match httpClient with
  | None => Panic
  | Some hc => try_wrap "error sending request: " (RoundTrip w hc req)
  end.

(** [strings.Contains(s, substr)] *)
Fixpoint strings_Contains (s substr : string) : bool :=
  String.prefix substr s ||
  match s with
  | EmptyString => false
  | String _ s' => strings_Contains s' substr
  end.

(** ** The API clients *)

(** The six client structs ([OpenAIClient], [GeminiClient],
    [AnthropicClient], [MistralClient], [OpenRouterClient],
    [OpenAICompatibleClient]) declare the same five fields; one record
    holds them, and [APIClient] below tags it with the struct it is. *)
Record client : Type := {
  httpClient : option http_Client;
  ctx : Context;
  apiKey : string;
  model : string;
  baseURL : string
}.

(** A non-nil value of the interface [APIClient]: a pointer to one of the
    six structs. *)
Inductive APIClient : Type :=
| OpenAIClient (c : client)
| GeminiClient (c : client)
| AnthropicClient (c : client)
| MistralClient (c : client)
| OpenRouterClient (c : client)
| OpenAICompatibleClient (c : client).

Definition fields (a : APIClient) : client :=
  match a with
  | OpenAIClient c | GeminiClient c | AnthropicClient c
  | MistralClient c | OpenRouterClient c | OpenAICompatibleClient c => c
  end.

Section Constructors.
Variables (ctx0 : Context) (apiKey0 model0 : string)
          (useCustomBaseURL : bool) (baseURL0 : string)
          (httpClient0 : option http_Client).

(** [endpoint := dflt; if useCustomBaseURL && baseURL != "" { endpoint = baseURL }] *)
Definition endpoint_or (dflt : string) : string :=
  if useCustomBaseURL && bool_decide (baseURL0 ≠ "") then baseURL0 else dflt.

Definition mk (endpoint : string) : client :=
  {| ctx := ctx0; apiKey := apiKey0; model := model0;
     baseURL := endpoint; httpClient := httpClient0 |}.

Definition NewOpenAIClient : client :=
  mk (endpoint_or "https://api.openai.com/v1/chat/completions").

Definition NewGeminiClient : client :=
  mk (endpoint_or ("https://generativelanguage.googleapis.com/v1/models/"
                   +:+ model0 +:+ ":generateContent")).

Definition NewAnthropicClient : client :=
  mk (endpoint_or "https://api.anthropic.com/v1/messages").

Definition NewMistralClient : client :=
  mk (endpoint_or "https://api.mistral.ai/v1/chat/completions").

Definition NewOpenRouterClient : client :=
  mk (endpoint_or "https://openrouter.ai/api/v1/chat/completions").

(** [endpoint := baseURL; if !useCustomBaseURL || baseURL == "" { endpoint = default }] *)
Definition NewOpenAICompatibleClient : client :=
  mk (if negb useCustomBaseURL || bool_decide (baseURL0 = "")
      then "https://api.openai.com/v1/chat/completions"
      else baseURL0).

End Constructors.

(** [NewAPIClient(ctx, provider, apiKey, model, useCustomBaseURL, baseURL,
    httpClient)]: returns the interface value (here [Some _]; [None] would
    be a nil interface) and the error (here [None] for nil). *)
Definition NewAPIClient (ctx : Context) (provider apiKey model : string)
    (useCustomBaseURL : bool) (baseURL : string)
    (httpClient : option http_Client) : option APIClient * option error :=
  let httpClient :=
    match httpClient with
    | None => Some {| Timeout := wrap64 (Second * 120) |}
    | Some hc => Some hc
    end in
  if bool_decide (provider = "gemini") then
    (Some (GeminiClient (NewGeminiClient ctx apiKey model useCustomBaseURL baseURL httpClient)), None)
  else if bool_decide (provider = "openai") || bool_decide (provider = "") then
    (Some (OpenAIClient (NewOpenAIClient ctx apiKey model useCustomBaseURL baseURL httpClient)), None)
  else if bool_decide (provider = "anthropic") then
    (Some (AnthropicClient (NewAnthropicClient ctx apiKey model useCustomBaseURL baseURL httpClient)), None)
  else if bool_decide (provider = "mistral") then
    (Some (MistralClient (NewMistralClient ctx apiKey model useCustomBaseURL baseURL httpClient)), None)
  else if bool_decide (provider = "openrouter") then
    (Some (OpenRouterClient (NewOpenRouterClient ctx apiKey model useCustomBaseURL baseURL httpClient)), None)
  else
    (Some (OpenAICompatibleClient
             (NewOpenAICompatibleClient ctx apiKey model useCustomBaseURL baseURL httpClient)), None).

(** ** The [Query] methods *)

Section Query.
Variable w : World.

(** The chat-completion payload of OpenAI and the OpenAI-compatible
    client: [{"model": c.model, "messages": [system, user]}]. *)
Definition OpenAIClient_payload (c : client) (systemPrompt prompt : string)
    : gmap string json :=
  let systemPrompt :=
    if bool_decide (systemPrompt = "") then "You are a helpful assistant."
    else systemPrompt in
  {[ "model" := JString (model c);
     "messages" := JArray [ message "system" systemPrompt;
                            message "user" prompt ] ]}.

(** [response.Error != nil], then [len(response.Choices) == 0], then
    [response.Choices[0].Message.Content]: the tail shared, verbatim, by
    the four chat-style clients. *)
Definition chat_result (response : chatResponse) : result string :=
  match chat_Error response with
  | Some e => Err (Errorf_s "API error: " (err_Message e))
  | None =>
      if bool_decide (length (Choices response) = 0%nat)
      then Err (errorString "no choices returned from API")
      else c0 ← index (Choices response) 0; Ok (Content (Message c0))
  end.

Definition OpenAIClient_Query (c : client) (systemPrompt prompt : string)
    : result string :=
  let payload := OpenAIClient_payload c systemPrompt prompt in
  bs ← try (json_Marshal w (JObject payload));
  req ← try_wrap "error creating request: "
          (http_NewRequestWithContext w (ctx c) "POST" (baseURL c) bs);
  let req := Header_Set req "Content-Type" "application/json" in
  let req := Header_Set req "Authorization" ("Bearer " +:+ apiKey c) in
  resp ← httpClient_Do w (httpClient c) req;
  body ← try_wrap "error reading response: " (ReadAll resp);
  response ← try_wrap "error unmarshaling response: " (Unmarshal_chat w body);
  chat_result response.

(** [fullPrompt := prompt; if systemPrompt != "" { fullPrompt =
    systemPrompt + "\n\n" + prompt }] *)
Definition GeminiClient_fullPrompt (systemPrompt prompt : string) : string :=
  if bool_decide (systemPrompt ≠ "") then systemPrompt +:+ LF +:+ LF +:+ prompt
  else prompt.

Definition GeminiClient_payload (systemPrompt prompt : string)
    : gmap string json :=
  {[ "contents" :=
       JArray [ JObject {[ "parts" :=
         JArray [ JObject {[ "text" :=
           JString (GeminiClient_fullPrompt systemPrompt prompt) ]} ] ]} ] ]}.

(** The API key goes into the query string. *)
Definition GeminiClient_url (c : client) : string :=
  if negb (strings_Contains (baseURL c) "?")
  then baseURL c +:+ "?key=" +:+ apiKey c
  else baseURL c +:+ "&key=" +:+ apiKey c.

(** The tail of [GeminiClient.Query], after the response is decoded. *)
Definition gemini_result (response : geminiResponse) : result string :=
  match gemini_Error response with
  | Some e => Err (Errorf_s "API error: " (err_Message e))
  | None =>
      (* len(Candidates) == 0 || len(Candidates[0].Content.Parts) == 0:
         the right operand is evaluated only when the left is false *)
      empty ← (if bool_decide (length (Candidates response) = 0%nat) then Ok true
               else c0 ← index (Candidates response) 0;
                    Ok (bool_decide (length (Parts (cand_Content c0)) = 0%nat)));
      if (empty : bool) then Err (errorString "no content returned from API")
      else c0 ← index (Candidates response) 0;
           p0 ← index (Parts (cand_Content c0)) 0;
           Ok (Text p0)
  end.

Definition GeminiClient_Query (c : client) (systemPrompt prompt : string)
    : result string :=
  let payload := GeminiClient_payload systemPrompt prompt in
  bs ← try (json_Marshal w (JObject payload));
  let url := GeminiClient_url c in
  req ← try_wrap "error creating request: "
          (http_NewRequestWithContext w (ctx c) "POST" url bs);
  let req := Header_Set req "Content-Type" "application/json" in
  resp ← httpClient_Do w (httpClient c) req;
  body ← try_wrap "error reading response: " (ReadAll resp);
  response ← try_wrap "error unmarshaling response: " (Unmarshal_gemini w body);
  gemini_result response.

(** [{"model", "messages": [user], "max_tokens": 4000}], and ["system"]
    only for a non-empty system prompt. *)
Definition AnthropicClient_payload (c : client) (systemPrompt prompt : string)
    : gmap string json :=
  let payload : gmap string json :=
    {[ "model" := JString (model c);
       "messages" := JArray [ message "user" prompt ];
       "max_tokens" := JNumber 4000 ]} in
  if bool_decide (systemPrompt ≠ "")
  then <[ "system" := JString systemPrompt ]> payload
  else payload.

(** The tail of [AnthropicClient.Query], after the response is decoded. *)
Definition anthropic_result (response : anthropicResponse) : result string :=
  match anthropic_Error response with
  | Some e => Err (Errorf_s "API error: " (err_Message e))
  | None =>
      if bool_decide (length (anthropic_Content response) = 0%nat)
      then Err (errorString "no content returned from API")
      else b0 ← index (anthropic_Content response) 0; Ok (Text b0)
  end.

Definition AnthropicClient_Query (c : client) (systemPrompt prompt : string)
    : result string :=
  let payload := AnthropicClient_payload c systemPrompt prompt in
  bs ← try (json_Marshal w (JObject payload));
  req ← try_wrap "error creating request: "
          (http_NewRequestWithContext w (ctx c) "POST" (baseURL c) bs);
  let req := Header_Set req "Content-Type" "application/json" in
  let req := Header_Set req "X-API-Key" (apiKey c) in
  let req := Header_Set req "anthropic-version" "2023-06-01" in
  resp ← httpClient_Do w (httpClient c) req;
  body ← try_wrap "error reading response: " (ReadAll resp);
  response ← try_wrap "error unmarshaling response: " (Unmarshal_anthropic w body);
  anthropic_result response.

(** [messages := [user]; if systemPrompt != "" { messages = append([system],
    messages...) }] (Mistral and OpenRouter) *)
Definition MistralClient_messages (systemPrompt prompt : string) : list json :=
  let messages := [ message "user" prompt ] in
  if bool_decide (systemPrompt ≠ "")
  then [ message "system" systemPrompt ] ++ messages
  else messages.

Definition MistralClient_payload (c : client) (systemPrompt prompt : string)
    : gmap string json :=
  {[ "model" := JString (model c);
     "messages" := JArray (MistralClient_messages systemPrompt prompt) ]}.

Definition MistralClient_Query (c : client) (systemPrompt prompt : string)
    : result string :=
  let payload := MistralClient_payload c systemPrompt prompt in
  bs ← try (json_Marshal w (JObject payload));
  req ← try_wrap "error creating request: "
          (http_NewRequestWithContext w (ctx c) "POST" (baseURL c) bs);
  let req := Header_Set req "Content-Type" "application/json" in
  let req := Header_Set req "Authorization" ("Bearer " +:+ apiKey c) in
  resp ← httpClient_Do w (httpClient c) req;
  body ← try_wrap "error reading response: " (ReadAll resp);
  response ← try_wrap "error unmarshaling response: " (Unmarshal_chat w body);
  chat_result response.

Definition OpenRouterClient_Query (c : client) (systemPrompt prompt : string)
    : result string :=
  let payload := MistralClient_payload c systemPrompt prompt in
  bs ← try (json_Marshal w (JObject payload));
  req ← try_wrap "error creating request: "
          (http_NewRequestWithContext w (ctx c) "POST" (baseURL c) bs);
  let req := Header_Set req "Content-Type" "application/json" in
  let req := Header_Set req "Authorization" ("Bearer " +:+ apiKey c) in
  let req := Header_Set req "HTTP-Referer" "https://maker.ai" in
  let req := Header_Set req "X-Title" "Maker AI" in
  resp ← httpClient_Do w (httpClient c) req;
  body ← try_wrap "error reading response: " (ReadAll resp);
  response ← try_wrap "error unmarshaling response: " (Unmarshal_chat w body);
  chat_result response.

Definition OpenAICompatibleClient_Query (c : client)
    (systemPrompt prompt : string) : result string :=
  let payload := OpenAIClient_payload c systemPrompt prompt in
  bs ← try (json_Marshal w (JObject payload));
  req ← try_wrap "error creating request: "
          (http_NewRequestWithContext w (ctx c) "POST" (baseURL c) bs);
  let req := Header_Set req "Content-Type" "application/json" in
  let req := Header_Set req "Authorization" ("Bearer " +:+ apiKey c) in
  resp ← httpClient_Do w (httpClient c) req;
  body ← try_wrap "error reading response: " (ReadAll resp);
  response ← try_wrap "error unmarshaling response: " (Unmarshal_chat w body);
  chat_result response.

(** Method dispatch on the interface value. *)
Definition Query (a : APIClient) (systemPrompt prompt : string) : result string :=
  match a with
  | OpenAIClient c => OpenAIClient_Query c systemPrompt prompt
  | GeminiClient c => GeminiClient_Query c systemPrompt prompt
  | AnthropicClient c => AnthropicClient_Query c systemPrompt prompt
  | MistralClient c => MistralClient_Query c systemPrompt prompt
  | OpenRouterClient c => OpenRouterClient_Query c systemPrompt prompt
  | OpenAICompatibleClient c => OpenAICompatibleClient_Query c systemPrompt prompt
  end.

End Query.

(** ** [cmd/maker]: the command line *)

(** [strings.Join(elems, sep)] *)
Fixpoint strings_Join (elems : list string) (sep : string) : string :=
  match elems with
  | [] => ""
  | [e] => e
  | e :: rest => e +:+ sep +:+ strings_Join rest sep
  end.

Module Maker.

(** The values of the flags after [flag.Parse()], and [flag.Args()].
    [main] is modelled from the return of [flag.Parse()] on: a command
    line that does not parse ends inside package [flag]. *)
Record Flags : Type := {
  openai_key : string;
  output_dir : string;
  base_package : string;
  worker_count : Z;
  template : string;
  language : string;
  model_name : string;
  timeout : Z;
  list_templates : bool;
  list_languages : bool;
  args : list string
}.

(** The defaults given to [flag.String], [flag.Int] and [flag.Bool]. *)
Definition defaults : Flags := {|
  openai_key := "";
  output_dir := "./output";
  base_package := "github.com/user/app";
  worker_count := 4;
  template := "default";
  language := "go";
  model_name := "gpt-4o-mini";
  timeout := 120;
  list_templates := false;
  list_languages := false;
  args := []
|}.

(** [&http.Client{Timeout: time.Duration( *timeout ) * time.Second}] *)
Definition main_httpClient (fl : Flags) : http_Client :=
  {| Timeout := wrap64 (wrap64 (timeout fl) * Second) |}.

(** What [main] calls in package [agents].  The agent is a pointer that
    the calls mutate; here each call returns the agent it leaves. *)
Record AgentsPackage (Agent OpenAI : Type) : Type := {
  NewOpenAI : Context -> string -> string -> http_Client -> OpenAI;
  NewAgent : Context -> OpenAI -> string -> string -> string -> string -> Z
             -> call Agent;
  (** name, description and language of each template *)
  ListTemplates : Agent -> list (string * string * string);
  ListLanguages : Agent -> list string;
  Start : Agent -> Agent;
  GenerateCode : Agent -> string -> Agent * option error;
  Stop : Agent -> Agent
}.
Arguments NewOpenAI {Agent OpenAI}.
Arguments NewAgent {Agent OpenAI}.
Arguments ListTemplates {Agent OpenAI}.
Arguments ListLanguages {Agent OpenAI}.
Arguments Start {Agent OpenAI}.
Arguments GenerateCode {Agent OpenAI}.
Arguments Stop {Agent OpenAI}.

(** What a run of [main] does, in order. *)
Inductive action : Type :=
| Println (line : string)                       (* fmt.Println / fmt.Printf *)
| LogPrintln (line : string)                    (* log.Println / log.Printf *)
| LogFatal (err : error)                        (* log.Fatal, then exit 1 *)
| CallNewAgent (workerCount : Z)
| CallStart
| CallGenerateCode (prompt : string) (err : option error)
| CallStop
| Sleep (d : Z).

Section Main.
Context {Agent OpenAI : Type} (agents : AgentsPackage Agent OpenAI).
(** [os.Getenv("OPENAI_API_KEY")] *)
Variable OPENAI_API_KEY : string.

(** [if *openAPIKey == "" { *openAPIKey = os.Getenv(...); if *openAPIKey
    == "" { ...; os.Exit(1) } }]: the key in use, or [None] for the exit. *)
Definition resolve_key (fl : Flags) : option string :=
  if bool_decide (openai_key fl = "") then
    if bool_decide (OPENAI_API_KEY = "") then None else Some OPENAI_API_KEY
  else Some (openai_key fl).

(** [main]: the actions performed and the exit code of the process
    (returning from [main] exits with 0). *)
Definition main (fl : Flags) : list action * Z :=
  match resolve_key fl with
  | None =>
      ([Println ("Please provide OpenAI API key using -openai-key flag " +:+
                 "or set OPENAI_API_KEY environment variable.")], 1)
  | Some openAPIKey =>
      let ctx := Background in
      let openAIClient :=
        NewOpenAI agents ctx openAPIKey (model_name fl) (main_httpClient fl) in
      match NewAgent agents ctx openAIClient (output_dir fl) (base_package fl)
                     (template fl) (language fl) (worker_count fl) with
      | Failed err => ([CallNewAgent (worker_count fl); LogFatal err], 1)
      | Done agent =>
          if list_templates fl then
            (CallNewAgent (worker_count fl) :: Println "Available templates:" ::
             map (fun '(n, d, l) =>
                    Println ("- " +:+ n +:+ ": " +:+ d +:+ " (Language: " +:+ l +:+ ")"))
                 (ListTemplates agents agent), 0)
          else if list_languages fl then
            (CallNewAgent (worker_count fl) :: Println "Supported languages:" ::
             map (fun l => Println ("- " +:+ l)) (ListLanguages agents agent), 0)
          else if bool_decide (length (args fl) = 0%nat) then
            ([CallNewAgent (worker_count fl);
              LogPrintln "please pass some arguments"], 1)
          else
            let agent := Start agents agent in
            let prompt := strings_Join (args fl) " " in
            match GenerateCode agents agent prompt with
            | (agent, Some err) =>
                ([CallNewAgent (worker_count fl); CallStart;
                  CallGenerateCode prompt (Some err);
                  LogPrintln ("error writing code: " +:+ Error err);
                  CallStop], 1)
            | (agent, None) =>
                ([CallNewAgent (worker_count fl); CallStart;
                  CallGenerateCode prompt None;
                  Sleep (1 * Second); CallStop;
                  LogPrintln ("finished writing project to " +:+ output_dir fl)], 0)
            end
      end
  end.

Definition exit_code (fl : Flags) : Z := snd (main fl).
Definition trace (fl : Flags) : list action := fst (main fl).

End Main.
End Maker.

(** ** The run engine: TemplateCatalog, WorkerPool, Agent, EventSink

    The Go files of the engine ([NewAgent], [Agent.Start],
    [Agent.GenerateCode], [Agent.Stop], the workers) are not among the
    sources; only their caller [main] is.  This module follows the design
    document, section by section.  Runs are modelled to completion: an
    external cancellation signal is not part of the model. *)

Module Engine.

(** Modelled from the spec: the data model (section 3); the Go
    declarations of these structs are missing.  A FileSpec is a relative
    output path and a generation instruction. *)
Record FileSpec : Type := {
  path : string;
  instruction : string
}.

(** Modelled from the spec: a Template (section 3; declaration
    missing): name, description, language tag and the ordered FileSpecs. *)
Record Template : Type := {
  name : string;
  description : string;
  language_tag : string;
  files : list FileSpec
}.

(** Modelled from the spec: [Resolve(name)] of the TemplateCatalog
    (section 4.1), whose source is missing: the registered template of
    that name, if any. *)
Definition Resolve (catalog : list Template) (n : string) : option Template :=
  List.find (fun t => bool_decide (name t = n)) catalog.

(** Modelled from the spec: a GenerationTask (section 3; declaration
    missing): identifier, owning FileSpec and the resolved prompts. *)
Record GenerationTask : Type := {
  task_id : nat;
  owner : FileSpec;
  systemPrompt : string;
  userPrompt : string
}.

(** Modelled from the spec: a TaskResult (section 3; declaration
    missing): the task identifier and either the generated content
    ([Done]) or the failure the client returned ([Failed]). *)
Record TaskResult : Type := {
  result_id : nat;
  outcome : call string
}.

(** Modelled from the spec: the GenerationClient capability the engine
    consumes (section 4.2): [Query(systemPrompt, userPrompt)] gives a text
    or an error. *)
Definition GenerationClient : Type := string -> string -> call string.

(** Modelled from the spec: a ProgressEvent (section 3; declaration
    missing): its type and the payload of that type. *)
Inductive ProgressEvent : Type :=
| EvStart (total : nat)
| EvFile (file : string)
| EvError (file : string) (detail : error)
| EvComplete (summary : string).

(** Modelled from the spec: the error kinds of sections 4.4 and 7. *)
Inductive RunError : Type :=
| ConfigError (msg : string)
| InvalidStateError
| AlreadyRunningError
| TemplateNotFound (n : string)
| PartialGenerationError (failed : list (string * error))
| CancelledError.

(** Modelled from the spec: the states of the Agent (section 4.4). *)
Inductive AgentState : Type :=
| Idle | Started | Generating | Completed | Failed_ | Cancelled | Stopped.

#[global] Instance AgentState_eq_dec : EqDecision AgentState.
Proof. solve_decision. Defined.

(** *** WorkerPool (section 4.3) *)

(** Modelled from the spec: the pool (section 4.3; source missing): the
    task queue, one slot per worker (idle, or holding the task it is
    working on) and the result stream, oldest result first. *)
Record Pool : Type := {
  queue : list GenerationTask;
  workers : list (option GenerationTask);
  results : list TaskResult
}.

Section Pool.
Variable client : GenerationClient.

(** Modelled from the spec: what a worker does with one task (section
    4.3; the worker's source is missing): invoke the client with the
    task's resolved prompts and emit a TaskResult with the content or
    with the error. *)
Definition execute (t : GenerationTask) : TaskResult :=
  {| result_id := task_id t;
     outcome := client (systemPrompt t) (userPrompt t) |}.

(** Modelled from the spec: submission (section 4.4; source missing).
    All tasks are queued before a worker moves: the queue's capacity is
    the task count. *)
Definition submit (N : nat) (tasks : list GenerationTask) : Pool :=
  {| queue := tasks; workers := replicate N None; results := [] |}.

(** Modelled from the spec: one move of worker [i] (section 4.3; the
    worker loop's source is missing).  A worker holding a task finishes
    it: the TaskResult, success or failure, goes to the result stream and
    the worker goes on to the next task.  An idle worker receives the
    task at the head of the queue; with the queue empty it has nothing to
    do. *)
Definition worker_step (p : Pool) (i : nat) : Pool :=
  match workers p !! i with
  | None => p
  | Some (Some t) =>
      {| queue := queue p;
         workers := <[ i := None ]> (workers p);
         results := results p ++ [execute t] |}
  | Some None =>
      match queue p with
      | [] => p
      | t :: rest =>
          {| queue := rest;
             workers := <[ i := Some t ]> (workers p);
             results := results p |}
      end
  end.

(** Modelled from the spec: the concurrent execution of the workers
    (section 5; source missing).  A schedule names the worker that moves
    next; any interleaving of the workers is some schedule. *)
Definition run (sched : list nat) (p : Pool) : Pool :=
  foldl worker_step p sched.

(** Modelled from the spec: the drain signal (section 4.3; source
    missing): nothing queued, nobody working. *)
Definition drained (p : Pool) : Prop :=
  queue p = [] ∧ Forall (fun s => s = None) (workers p).

(** The workers that hold a task, counting slots from [i]. *)
Fixpoint busy_from (i : nat) (slots : list (option GenerationTask)) : list nat :=
  match slots with
  | [] => []
  | Some _ :: rest => i :: busy_from (S i) rest
  | None :: rest => busy_from (S i) rest
  end.

Definition busy (p : Pool) : list nat := busy_from 0 (workers p).

(** The tasks the workers hold. *)
Definition in_flight (p : Pool) : list GenerationTask := omap id (workers p).

(** Modelled from the spec: blocking until the drain signal (section
    4.4, "block until all tasks drained"; source missing): every worker
    that holds a task finishes it, then the queue is worked off. *)
Definition await_drain (p : Pool) : Pool :=
  let p := run (busy p) p in
  run (replicate (2 * length (queue p)) 0%nat) p.

(** Every task is in exactly one place: done, held by a worker, or queued. *)
Definition accounts (tasks : list GenerationTask) (p : Pool) : Prop :=
  (results p ++ map execute (in_flight p) ++ map execute (queue p))%list
    ≡ₚ map execute tasks.

End Pool.

(** *** Agent (section 4.4) and EventSink (section 4.5) *)

(** The configured maximum of the worker count. *)
Definition maxWorkers : Z := 8.

(** Modelled from the spec: the Agent (sections 2 and 4.4; declaration
    missing): the GenerationClient and the configuration it is bound to,
    its state, the events handed to the EventSink so far (oldest first),
    the failures recorded by the current run, and the files written to
    disk (full path to content). *)
Record Agent : Type := {
  generation : GenerationClient;
  catalog : list Template;
  outputRoot : string;
  projectName : string;
  basePackage : string;
  templateName : string;
  language : string;
  workerCount : nat;
  state : AgentState;
  emitted : list ProgressEvent;
  failures : list (string * error);
  disk : gmap string string
}.

Definition set_state (s : AgentState) (a : Agent) : Agent :=
  {| generation := generation a;
     catalog := catalog a; outputRoot := outputRoot a;
     projectName := projectName a; basePackage := basePackage a;
     templateName := templateName a; language := language a;
     workerCount := workerCount a; state := s; emitted := emitted a;
     failures := failures a; disk := disk a |}.

(** Modelled from the spec: [Emit(event)] of the EventSink (section 4.5;
    source missing): events are delivered in call order. *)
Definition Emit (e : ProgressEvent) (a : Agent) : Agent :=
  {| generation := generation a;
     catalog := catalog a; outputRoot := outputRoot a;
     projectName := projectName a; basePackage := basePackage a;
     templateName := templateName a; language := language a;
     workerCount := workerCount a; state := state a;
     emitted := emitted a ++ [e];
     failures := failures a; disk := disk a |}.

Definition record_failure (file : string) (cause : error) (a : Agent) : Agent :=
  {| generation := generation a;
     catalog := catalog a; outputRoot := outputRoot a;
     projectName := projectName a; basePackage := basePackage a;
     templateName := templateName a; language := language a;
     workerCount := workerCount a; state := state a; emitted := emitted a;
     failures := failures a ++ [(file, cause)]; disk := disk a |}.

Definition store (full content : string) (a : Agent) : Agent :=
  {| generation := generation a;
     catalog := catalog a; outputRoot := outputRoot a;
     projectName := projectName a; basePackage := basePackage a;
     templateName := templateName a; language := language a;
     workerCount := workerCount a; state := state a; emitted := emitted a;
     failures := failures a; disk := <[ full := content ]> (disk a) |}.

(** Modelled from the spec: the construction of an Agent (sections 2, 4.3
    and 7; [NewAgent]'s source is missing).  The worker count is validated
    here, before anything runs: [1 <= N <= maxWorkers], anything else is
    a ConfigError. *)
Definition NewAgent (catalog : list Template) (client : GenerationClient)
    (outputDir basePackage templateName language : string) (workerCount : Z)
    : Agent + RunError :=
  if bool_decide (1 ≤ workerCount ≤ maxWorkers)%Z then
    inl {| generation := client;
           catalog := catalog; outputRoot := outputDir; projectName := "";
           basePackage := basePackage; templateName := templateName;
           language := language; workerCount := Z.to_nat workerCount;
           state := Idle; emitted := []; failures := []; disk := ∅ |}
  else inr (ConfigError "invalid worker count").

(** Modelled from the spec: [Start()] (section 4.4; source missing):
    Idle to Started; in any other state a no-op. *)
Definition Start (a : Agent) : Agent :=
  match state a with
  | Idle => set_state Started a
  | _ => a
  end.

(** Modelled from the spec: [Stop()] (section 4.4; source missing): to
    Stopped from any state, idempotent. *)
Definition Stop (a : Agent) : Agent := set_state Stopped a.

(** Modelled from the spec: the task list (section 4.4; source missing).
    One GenerationTask per FileSpec, in the template's order: the system
    prompt from the template and language conventions, the user prompt
    from the project prompt, the file instruction and the base package. *)
Definition build_tasks (a : Agent) (tmpl : Template) (prompt : string)
    : list GenerationTask :=
  imap (fun i f =>
          {| task_id := i; owner := f;
             systemPrompt := description tmpl +:+ LF +:+ language_tag tmpl;
             userPrompt := prompt +:+ LF +:+ instruction f +:+ LF +:+ basePackage a |})
       (files tmpl).

(** The file path a result belongs to: that of the FileSpec owning the
    task with the result's identifier. *)
Definition result_path (tasks : list GenerationTask) (r : TaskResult) : string :=
  match tasks !! result_id r with
  | Some t => path (owner t)
  | None => ""
  end.

Section Run.
(** Persisting a file: [None] when the write succeeds, the error otherwise. *)
Variable write_file : string -> string -> option error.

(** Modelled from the spec: what the orchestrator does with one result
    (section 4.4, "consume results as they arrive"; source missing).  On
    success the content is written to [outputRoot/projectName/path] and a
    [file] event is emitted; a write failure is handled like a generation
    failure (section 7).  On failure an [error] event is emitted and the
    failure recorded. *)
Definition consume (tasks : list GenerationTask) (a : Agent) (r : TaskResult)
    : Agent :=
  let file := result_path tasks r in
  match outcome r with
  | Done content =>
      let full := outputRoot a +:+ "/" +:+ projectName a +:+ "/" +:+ file in
      match write_file full content with
      | None => Emit (EvFile file) (store full content a)
      | Some err => record_failure file err (Emit (EvError file err) a)
      end
  | Failed err => record_failure file err (Emit (EvError file err) a)
  end.

(** Modelled from the spec: [GenerateCode(prompt)] (section 4.4; source
    missing).  [sched] is the interleaving of the workers during the run.
    The call is rejected unless the agent is Started: with
    AlreadyRunningError when a run was begun since [Start()], with
    InvalidStateError otherwise.  A run resolves the template, builds the
    tasks, emits [start], lets the pool work until it is drained, consumes
    the results in the order of their arrival, and ends Completed with a
    [complete] event or Failed with the aggregate error.  (The language
    check behind UnsupportedLanguage is not described and not modelled.) *)
Definition GenerateCode (sched : list nat) (a : Agent) (prompt : string)
    : Agent * option RunError :=
  match state a with
  | Idle | Stopped => (a, Some InvalidStateError)
  | Generating | Completed | Failed_ | Cancelled => (a, Some AlreadyRunningError)
  | Started =>
      let a := set_state Generating a in
      match Resolve (catalog a) (templateName a) with
      | None => (set_state Failed_ a, Some (TemplateNotFound (templateName a)))
      | Some tmpl =>
          let tasks := build_tasks a tmpl prompt in
          let a := Emit (EvStart (length tasks)) a in
          let pool := await_drain (generation a)
                        (run (generation a) sched (submit (workerCount a) tasks)) in
          let a := foldl (consume tasks) a (results pool) in
          match failures a with
          | [] => (Emit (EvComplete "generation complete") (set_state Completed a), None)
          | failed => (set_state Failed_ a, Some (PartialGenerationError failed))
          end
      end
  end.

End Run.

Definition is_start (e : ProgressEvent) : bool :=
  match e with EvStart _ => true | _ => false end.

Definition is_file_or_error (e : ProgressEvent) : bool :=
  match e with EvFile _ | EvError _ _ => true | _ => false end.

Definition event_file (e : ProgressEvent) : string :=
  match e with EvFile f | EvError f _ => f | _ => "" end.

(** The failed path and its cause an [error] event reports. *)
Definition failure_of (e : ProgressEvent) : option (string * error) :=
  match e with EvError f cause => Some (f, cause) | _ => None end.

(** The calls a caller can make on an agent. *)
Inductive Op : Type :=
| OpStart
| OpGenerateCode (sched : list nat) (prompt : string)
| OpStop.

Section Calls.
Variable write_file : string -> string -> option error.

Definition apply_op (a : Agent) (op : Op) : Agent :=
  match op with
  | OpStart => Start a
  | OpGenerateCode sched prompt => fst (GenerateCode write_file sched a prompt)
  | OpStop => Stop a
  end.

Definition apply_ops (ops : list Op) (a : Agent) : Agent := foldl apply_op a ops.

End Calls.

(** The runs an agent has begun: one [start] event each. *)
Definition runs (a : Agent) : nat :=
  length (List.filter is_start (emitted a)).

(** A run has begun since [Start()]. *)
Definition begun (a : Agent) : Prop :=
  state a = Generating ∨ state a = Completed ∨ state a = Failed_
  ∨ state a = Cancelled.

(** What holds of every agent a caller can get hold of. *)
Definition reachable_inv (a : Agent) : Prop :=
  (0 < workerCount a)%nat ∧ (runs a ≤ 1)%nat ∧
  (state a = Idle ∨ state a = Started → emitted a = [] ∧ failures a = []).

(** The text of a RunError as a Go [error]. *)
Definition to_error (e : RunError) : error :=
  match e with
  | ConfigError msg => errorString ("config error: " +:+ msg)
  | InvalidStateError => errorString "invalid state"
  | AlreadyRunningError => errorString "already running"
  | TemplateNotFound n => errorString ("template not found: " +:+ n)
  | PartialGenerationError failed =>
      errorString ("generation failed for: " +:+ strings_Join (map fst failed) ", ")
  | CancelledError => errorString "cancelled"
  end.

(** The engine as package [agents], as [main] calls it. *)
Definition package (catalog : list Template) (client : GenerationClient)
    (write_file : string -> string -> option error) (sched : list nat)
    : Maker.AgentsPackage Agent GenerationClient := {|
  Maker.NewOpenAI := fun _ _ _ _ => client;
  Maker.NewAgent := fun _ c outputDir basePackage templateName language n =>
    match NewAgent catalog c outputDir basePackage templateName language n with
    | inl a => Done a
    | inr e => Failed (to_error e)
    end;
  Maker.ListTemplates := fun a =>
    map (fun t => (name t, description t, language_tag t)) (Engine.catalog a);
  Maker.ListLanguages := fun a =>
    remove_dups (map language_tag (Engine.catalog a));
  Maker.Start := Start;
  Maker.GenerateCode := fun a prompt =>
    let '(a, r) := GenerateCode write_file sched a prompt in (a, to_error <$> r);
  Maker.Stop := Stop
|}.

End Engine.

(** ** Auxiliary notions used by the statements *)

(** [net/http]: a request made through a client is given a deadline only
    when the client's [Timeout] is positive; zero means no timeout. *)
Definition deadline (hc : http_Client) : option Z :=
  if bool_decide (0 < Timeout hc)%Z then Some (Timeout hc) else None.

(** The response struct a [Query] call decoded. *)
Inductive decoded : Type :=
| DChat (r : chatResponse)
| DGemini (r : geminiResponse)
| DAnthropic (r : anthropicResponse).

Section Exchange.
Variable w : World.

(** The part common to the six [Query] bodies, from [json.Marshal] to
    [json.Unmarshal]: the payload posted to [url] with [headers] set in
    order, and the body decoded by [unmarshal]. *)
Definition round_trip {R : Type} (c : client) (url : string)
    (headers : list (string * string)) (payload : gmap string json)
    (unmarshal : string -> call R) : result R :=
  bs ← try (json_Marshal w (JObject payload));
  req ← try_wrap "error creating request: "
          (http_NewRequestWithContext w (ctx c) "POST" url bs);
  let req := foldl (fun r kv => Header_Set r kv.1 kv.2) req headers in
  resp ← httpClient_Do w (httpClient c) req;
  body ← try_wrap "error reading response: " (ReadAll resp);
  try_wrap "error unmarshaling response: " (unmarshal body).

Definition bearer (c : client) : list (string * string) :=
  [ ("Content-Type", "application/json");
    ("Authorization", "Bearer " +:+ apiKey c) ].

(** The response [Query] decodes, when the exchange gets that far. *)
Definition exchange (a : APIClient) (systemPrompt prompt : string) : result decoded :=
  match a with
  | OpenAIClient c | OpenAICompatibleClient c =>
      DChat <$> round_trip c (baseURL c) (bearer c)
                  (OpenAIClient_payload c systemPrompt prompt) (Unmarshal_chat w)
  | MistralClient c =>
      DChat <$> round_trip c (baseURL c) (bearer c)
                  (MistralClient_payload c systemPrompt prompt) (Unmarshal_chat w)
  | OpenRouterClient c =>
      DChat <$> round_trip c (baseURL c)
                  (bearer c ++ [ ("HTTP-Referer", "https://maker.ai");
                                 ("X-Title", "Maker AI") ])
                  (MistralClient_payload c systemPrompt prompt) (Unmarshal_chat w)
  | GeminiClient c =>
      DGemini <$> round_trip c (GeminiClient_url c)
                    [ ("Content-Type", "application/json") ]
                    (GeminiClient_payload systemPrompt prompt) (Unmarshal_gemini w)
  | AnthropicClient c =>
      DAnthropic <$> round_trip c (baseURL c)
                       [ ("Content-Type", "application/json");
                         ("X-API-Key", apiKey c);
                         ("anthropic-version", "2023-06-01") ]
                       (AnthropicClient_payload c systemPrompt prompt)
                       (Unmarshal_anthropic w)
  end.

End Exchange.

(** What [Query] returns once the response is decoded. *)
Definition respond (d : decoded) : result string :=
  match d with
  | DChat r => chat_result r
  | DGemini r => gemini_result r
  | DAnthropic r => anthropic_result r
  end.

(** A decoded response without generated content: it carries an error
    object, or its list of choices (candidates, content blocks) is empty,
    or (Gemini) its first candidate has no parts. *)
Definition no_content (d : decoded) : Prop :=
  match d with
  | DChat r => is_Some (chat_Error r) ∨ Choices r = []
  | DGemini r =>
      is_Some (gemini_Error r) ∨ Candidates r = [] ∨
      (∃ c0, Candidates r !! 0%nat = Some c0 ∧ Parts (cand_Content c0) = [])
  | DAnthropic r => is_Some (anthropic_Error r) ∨ anthropic_Content r = []
  end.

(** The text of the first choice of a decoded response. *)
Definition first_text (d : decoded) : option string :=
  match d with
  | DChat r => (fun c0 => Content (Message c0)) <$> Choices r !! 0%nat
  | DGemini r => c0 ← Candidates r !! 0%nat; Text <$> Parts (cand_Content c0) !! 0%nat
  | DAnthropic r => Text <$> anthropic_Content r !! 0%nat
  end.

(** The client kinds, for the provider table. *)
Inductive kind : Type :=
| KOpenAI | KGemini | KAnthropic | KMistral | KOpenRouter | KOpenAICompatible.

Definition kind_of (a : APIClient) : kind :=
  match a with
  | OpenAIClient _ => KOpenAI
  | GeminiClient _ => KGemini
  | AnthropicClient _ => KAnthropic
  | MistralClient _ => KMistral
  | OpenRouterClient _ => KOpenRouter
  | OpenAICompatibleClient _ => KOpenAICompatible
  end.

(** The classes of the design document (section 4.2). *)
Inductive ErrorClass : Type := Transient | Fatal.

(** The class the design document gives a failed call by the HTTP status
    of the response: rate limit (429) and 5xx are Transient,
    authentication (401, 403) and a malformed request (400) are Fatal. *)
Definition class_of_status (status : Z) : option ErrorClass :=
  if bool_decide (status = 429) || bool_decide (500 ≤ status ≤ 599)%Z then Some Transient
  else if bool_decide (status = 401) || bool_decide (status = 403)
          || bool_decide (status = 400) then Some Fatal
  else None.

(** A provider that answers every request with the given status, and
    whose body decodes to the given structs. *)
Definition provider (status : Z) (chat : chatResponse) (gem : geminiResponse)
    (ant : anthropicResponse) : World := {|
  json_Marshal := fun _ => Done "{}";
  url_Parse := fun _ => None;
  RoundTrip := fun _ _ => Done {| StatusCode := status; ReadAll := Done "{}" |};
  Unmarshal_chat := fun _ => Done chat;
  Unmarshal_gemini := fun _ => Done gem;
  Unmarshal_anthropic := fun _ => Done ant
|}.

(** A provider answering with an error object and nothing else. *)
Definition refusing (status : Z) (msg : string) : World :=
  provider status
    {| Choices := []; chat_Error := Some {| err_Message := msg |} |}
    {| Candidates := []; gemini_Error := Some {| err_Message := msg |} |}
    {| anthropic_Content := []; anthropic_Error := Some {| err_Message := msg |} |}.

(** A provider answering 200 with empty lists and no error object. *)
Definition silent : World :=
  provider 200
    {| Choices := []; chat_Error := None |}
    {| Candidates := []; gemini_Error := None |}
    {| anthropic_Content := []; anthropic_Error := None |}.

(** An OpenAI client as [NewAPIClient] builds it by default. *)
Definition demo_client : APIClient :=
  OpenAIClient (NewOpenAIClient Background "sk-test" "gpt-4o-mini" false ""
                  (Some {| Timeout := wrap64 (Second * 120) |})).

(** The same world with every response's status code replaced. *)
Definition with_status (f : Z -> Z) (w : World) : World := {|
  json_Marshal := json_Marshal w;
  url_Parse := url_Parse w;
  RoundTrip := fun hc req =>
    match RoundTrip w hc req with
    | Done resp => Done {| StatusCode := f (StatusCode resp); ReadAll := ReadAll resp |}
    | Failed err => Failed err
    end;
  Unmarshal_chat := Unmarshal_chat w;
  Unmarshal_gemini := Unmarshal_gemini w;
  Unmarshal_anthropic := Unmarshal_anthropic w
|}.

(** A [Query] method as the GenerationClient capability the engine
    consumes.  (A panic has no counterpart among TaskResults; the clients
    [NewAPIClient] builds never panic.) *)
Definition as_client (w : World) (a : APIClient) : Engine.GenerationClient :=
  fun systemPrompt prompt =>
    match Query w a systemPrompt prompt with
    | Ok text => Done text
    | Err e => Failed e
    | Panic => Failed (errorString "panic")
    end.

(** [maker -openai-key sk-test -list-templates] *)
Definition listing_flags : Maker.Flags := {|
  Maker.openai_key := "sk-test";
  Maker.output_dir := "./output";
  Maker.base_package := "github.com/user/app";
  Maker.worker_count := 4;
  Maker.template := "default";
  Maker.language := "go";
  Maker.model_name := "gpt-4o-mini";
  Maker.timeout := 120;
  Maker.list_templates := true;
  Maker.list_languages := false;
  Maker.args := []
|}.

(** [maker -openai-key sk-test -timeout t prompt...] *)
Definition timeout_flags (t : Z) (prompt : list string) : Maker.Flags := {|
  Maker.openai_key := "sk-test";
  Maker.output_dir := "./output";
  Maker.base_package := "github.com/user/app";
  Maker.worker_count := 4;
  Maker.template := "default";
  Maker.language := "go";
  Maker.model_name := "gpt-4o-mini";
  Maker.timeout := t;
  Maker.list_templates := false;
  Maker.list_languages := false;
  Maker.args := prompt
|}.

(** The scenario of the design document: template "go-gin" with five
    file specs, two workers, and a stub client. *)
Definition go_gin : Engine.Template := {|
  Engine.name := "go-gin";
  Engine.description := "REST API with Gin";
  Engine.language_tag := "go";
  Engine.files :=
    [ {| Engine.path := "main.go"; Engine.instruction := "entry point" |};
      {| Engine.path := "go.mod"; Engine.instruction := "module file" |};
      {| Engine.path := "handlers/books.go"; Engine.instruction := "HTTP handlers" |};
      {| Engine.path := "models/book.go"; Engine.instruction := "data model" |};
      {| Engine.path := "README.md"; Engine.instruction := "read me" |} ]
|}.

(** A stub client that returns a fixed text. *)
Definition stub : Engine.GenerationClient := fun _ _ => Done "// generated".

(** A stub client that fails on the handlers and succeeds elsewhere. *)
Definition flaky : Engine.GenerationClient := fun _ userPrompt =>
  if strings_Contains userPrompt "HTTP handlers"
  then Failed (errorString "API error: rate limited")
  else Done "// generated".

(** A disk on which every write succeeds. *)
Definition disk_ok : string -> string -> option error := fun _ _ => None.

(** The agent [NewAgent] builds for the scenario, around [client]. *)
Definition scenario_agent (client : Engine.GenerationClient) : Engine.Agent := {|
  Engine.generation := client;
  Engine.catalog := [go_gin];
  Engine.outputRoot := "./output";
  Engine.projectName := "";
  Engine.basePackage := "github.com/user/app";
  Engine.templateName := "go-gin";
  Engine.language := "go";
  Engine.workerCount := 2;
  Engine.state := Engine.Idle;
  Engine.emitted := [];
  Engine.failures := [];
  Engine.disk := ∅
|}.

(** A package [agents] whose every call succeeds. *)
Definition succeeding : Maker.AgentsPackage unit unit := {|
  Maker.NewOpenAI := fun _ _ _ _ => tt;
  Maker.NewAgent := fun _ _ _ _ _ _ _ => Done tt;
  Maker.ListTemplates := fun _ => [];
  Maker.ListLanguages := fun _ => [];
  Maker.Start := fun a => a;
  Maker.GenerateCode := fun a _ => (a, None);
  Maker.Stop := fun a => a
|}.

(** ** [cmd/server]: the web server's [main] *)

Module Server.

(** The flags of the server.  [-openai-key] is registered with
    [os.Getenv("OPENAI_API_KEY")] as its default, so what [flag.Parse()]
    leaves depends on whether the flag was given: [None] is a command
    line without it. *)
Record Flags : Type := {
  openai_key : option string;
  output_dir : string;
  port : string
}.

Definition defaults : Flags :=
  {| openai_key := None; output_dir := "./output"; port := "3000" |}.

(** What is registered for a pattern: the static file server, or a method
    of the server value. *)
Inductive handler : Type :=
| FileServer (dir : string)
| HandleGenerate
| HandleDownload.

Inductive action : Type :=
| Println (line : string)
| NewServer (openAPIKey outputDir : string)
| Handle (pattern : string) (h : handler)     (* http.Handle / http.HandleFunc *)
| LogPrintf (line : string)
| ListenAndServe (addr : string)
| LogFatal (err : error).

Section Main.
(** [os.Getenv("OPENAI_API_KEY")] *)
Variable OPENAI_API_KEY : string.
(** [http.ListenAndServe(addr, nil)]: the error it returns, or [None]
    when it never returns. *)
Variable listen : string -> option error.

(** [*openAPIKey] after [flag.Parse()]. *)
Definition flag_value (fl : Flags) : string :=
  match openai_key fl with
  | Some given => given
  | None => OPENAI_API_KEY
  end.

Definition resolve_key (fl : Flags) : option string :=
  if bool_decide (flag_value fl = "") then
    if bool_decide (OPENAI_API_KEY = "") then None else Some OPENAI_API_KEY
  else Some (flag_value fl).

(** [main]: the actions performed and the exit code, [None] while the
    server keeps serving. *)
Definition main (fl : Flags) : list action * option Z :=
  match resolve_key fl with
  | None =>
      ([Println ("Please provide OpenAI API key using -openai-key flag " +:+
                 "or set OPENAI_API_KEY environment variable.")], Some 1)
  | Some openAPIKey =>
      let setup :=
        [ NewServer openAPIKey (output_dir fl);
          Handle "/" (FileServer "web/static");
          Handle "/api/generate" HandleGenerate;
          Handle "/download/" HandleDownload;
          LogPrintf ("Server starting on http://localhost:" +:+ port fl);
          ListenAndServe (":" +:+ port fl) ] in
      match listen (":" +:+ port fl) with
      | None => (setup, None)
      | Some err => ((setup ++ [LogFatal err])%list, Some 1)
      end
  end.

Definition trace (fl : Flags) : list action := fst (main fl).
Definition exit_code (fl : Flags) : option Z := snd (main fl).

End Main.


Definition is_ListenAndServe (a : action) : bool :=
  match a with ListenAndServe _ => true | _ => false end.

End Server.

(** ** [web/static/index.html]: the page's script *)

Module Page.

(** A property of a parsed frame: absent, or a string. *)
Inductive JSval : Type :=
| undefined
| str (s : string).

#[global] Instance JSval_eq_dec : EqDecision JSval.
Proof. solve_decision. Defined.

(** The string a value becomes in a template literal or as [innerText]. *)
Definition String_ (v : JSval) : string :=
  match v with
  | undefined => "undefined"
  | str s => s
  end.

(** [JSON.parse(event.data)], when it is an object: the properties the
    handler reads. *)
Record Frame : Type := {
  type : JSval;
  message : JSval;
  file : JSval;
  error : JSval;
  zipUrl : JSval
}.

(** A [<p>] of the console: its class and its text. *)
Record Line : Type := { class : string; innerText : string }.

(** The elements the script touches. *)
Record DOM : Type := {
  resultSection_hidden : bool;
  console : list Line;
  downloadSection_hidden : bool;
  downloadLink_href : string;
  generateBtn_disabled : bool;
  generateBtn_innerText : string
}.

(** The page as loaded. *)
Definition loaded : DOM := {|
  resultSection_hidden := true;
  console := [];
  downloadSection_hidden := true;
  downloadLink_href := "#";
  generateBtn_disabled := false;
  generateBtn_innerText := "Generate Code"
|}.

(** [log(type, message)]: appends a paragraph to the console. *)
Definition log (type message : string) (d : DOM) : DOM :=
  {| resultSection_hidden := resultSection_hidden d;
     console := console d ++ [ {| class := type; innerText := message |} ];
     downloadSection_hidden := downloadSection_hidden d;
     downloadLink_href := downloadLink_href d;
     generateBtn_disabled := generateBtn_disabled d;
     generateBtn_innerText := generateBtn_innerText d |}.

(** [generateBtn.disabled = false; generateBtn.innerText = 'Generate Code'] *)
Definition enable_button (d : DOM) : DOM :=
  {| resultSection_hidden := resultSection_hidden d;
     console := console d;
     downloadSection_hidden := downloadSection_hidden d;
     downloadLink_href := downloadLink_href d;
     generateBtn_disabled := false;
     generateBtn_innerText := "Generate Code" |}.

(** [downloadLink.href = url; downloadSection.classList.remove('hidden')] *)
Definition show_download (url : string) (d : DOM) : DOM :=
  {| resultSection_hidden := resultSection_hidden d;
     console := console d;
     downloadSection_hidden := false;
     downloadLink_href := url;
     generateBtn_disabled := generateBtn_disabled d;
     generateBtn_innerText := generateBtn_innerText d |}.

(** The values of the form's fields. *)
Record Form : Type := {
  prompt_value : string;
  language_value : string;
  template_value : string;
  base_package_value : string;
  worker_count_value : string;
  model_value : string;
  project_name_value : string
}.

(** The object sent over the socket; [workerCount] is a number or NaN
    ([None]). *)
Record Request : Type := {
  prompt : string;
  language : string;
  template : string;
  basePackage : string;
  workerCount : option Z;
  model : string;
  projectName : string
}.

(** The part of [startGeneration] before the socket is opened: the
    result section is shown, the console cleared, the download section
    hidden and the button disabled. *)
Definition startGeneration (d : DOM) : DOM :=
  {| resultSection_hidden := false;
     console := [];
     downloadSection_hidden := true;
     downloadLink_href := downloadLink_href d;
     generateBtn_disabled := true;
     generateBtn_innerText := "Generating..." |}.

Section Script.
(** [parseInt] of the browser. *)
Variable parseInt : string -> option Z.

(** The request [websocket.onopen] sends:
    [projectName: value || `${language}-project`]. *)
Definition request (f : Form) : Request :=
  {| prompt := prompt_value f;
     language := language_value f;
     template := template_value f;
     basePackage := base_package_value f;
     workerCount := parseInt (worker_count_value f);
     model := model_value f;
     projectName :=
       if bool_decide (project_name_value f = "")
       then language_value f +:+ "-project"
       else project_name_value f |}.

End Script.

(** [websocket.onopen], as far as the page is concerned. *)
Definition onopen (d : DOM) : DOM :=
  log "info" "Connected to server. Starting code generation..." d.

(** [websocket.onmessage]: [data] is [None] when [event.data] does not
    parse to an object (the handler then throws before touching the
    page). *)
Definition onmessage (d : DOM) (data : option Frame) : DOM :=
  match data with
  | None => d
  | Some data =>
      (* switch (data.type): the cases are compared with [===] in order *)
      if bool_decide (type data = str "start") then
        log "info" (String_ (message data)) d
      else if bool_decide (type data = str "file") then
        log "info" ("Writing file: " +:+ String_ (file data)) d
      else if bool_decide (type data = str "error") then
        enable_button (log "error" ("Error: " +:+ String_ (error data)) d)
      else if bool_decide (type data = str "complete") then
        enable_button
          (show_download (String_ (zipUrl data))
             (log "success" (String_ (message data)) d))
      else d
  end.

(** [websocket.onerror] *)
Definition onerror (d : DOM) : DOM :=
  enable_button (log "error" "WebSocket error: [object Event]" d).

(** [websocket.onclose] *)
Definition onclose (d : DOM) : DOM := log "info" "Connection closed" d.

(** What the socket delivers. *)
Inductive SocketEvent : Type :=
| Open
| Message (data : option Frame)
| Error
| Close.

Definition handle (d : DOM) (e : SocketEvent) : DOM :=
  match e with
  | Open => onopen d
  | Message data => onmessage d data
  | Error => onerror d
  | Close => onclose d
  end.

(** The page after a click on the button and the events that follow. *)
Definition generation (d : DOM) (events : list SocketEvent) : DOM :=
  foldl handle (startGeneration d) events.

(** The type of a frame the switch has a case for. *)
Definition has_type (t : string) (e : SocketEvent) : bool :=
  match e with
  | Message (Some data) => bool_decide (type data = str t)
  | _ => false
  end.

(** The events that give the button back: an [error] frame, a
    [complete] frame, a socket error. *)
Definition ends_wait (e : SocketEvent) : bool :=
  match e with
  | Error => true
  | _ => has_type "error" e || has_type "complete" e
  end.

(** The events that write a line to the console: every event but a frame
    the switch has no case for. *)
Definition logs_line (e : SocketEvent) : bool :=
  match e with
  | Open | Error | Close => true
  | Message _ =>
      has_type "start" e || has_type "file" e || has_type "error" e
      || has_type "complete" e
  end.

Definition frame (t : string) (msg f err url : JSval) : SocketEvent :=
  Message (Some {| type := str t; message := msg; file := f;
                   error := err; zipUrl := url |}).

End Page.

(** ** Further notions used by the statements *)

(** The payload a client marshals. *)
Definition payload_of (a : APIClient) (systemPrompt prompt : string)
    : gmap string json :=
  match a with
  | OpenAIClient c | OpenAICompatibleClient c =>
      OpenAIClient_payload c systemPrompt prompt
  | MistralClient c | OpenRouterClient c =>
      MistralClient_payload c systemPrompt prompt
  | GeminiClient c => GeminiClient_payload systemPrompt prompt
  | AnthropicClient c => AnthropicClient_payload c systemPrompt prompt
  end.

(** The URL a client posts to. *)
Definition url_of (a : APIClient) : string :=
  match a with
  | GeminiClient c => GeminiClient_url c
  | _ => baseURL (fields a)
  end.

(** The request a client hands to its HTTP client, [bs] being the
    marshalled payload: built with the calls of [Header.Set] the client
    makes, in its order. *)
Definition request_of (a : APIClient) (bs : string) : Request :=
  let req := {| Method := "POST"; URL := url_of a; Header := ∅; Body := bs |} in
  let req := Header_Set req "Content-Type" "application/json" in
  match a with
  | OpenAIClient c | MistralClient c | OpenAICompatibleClient c =>
      Header_Set req "Authorization" ("Bearer " +:+ apiKey c)
  | OpenRouterClient c =>
      let req := Header_Set req "Authorization" ("Bearer " +:+ apiKey c) in
      let req := Header_Set req "HTTP-Referer" "https://maker.ai" in
      Header_Set req "X-Title" "Maker AI"
  | GeminiClient c => req
  | AnthropicClient c =>
      let req := Header_Set req "X-API-Key" (apiKey c) in
      Header_Set req "anthropic-version" "2023-06-01"
  end.

(** What a client does with the outcome of the round trip. *)
Definition receive (w : World) (a : APIClient) (r : call Response) : result string :=
  resp ← try_wrap "error sending request: " r;
  body ← try_wrap "error reading response: " (ReadAll resp);
  match a with
  | GeminiClient _ =>
      response ← try_wrap "error unmarshaling response: " (Unmarshal_gemini w body);
      gemini_result response
  | AnthropicClient _ =>
      response ← try_wrap "error unmarshaling response: " (Unmarshal_anthropic w body);
      anthropic_result response
  | _ =>
      response ← try_wrap "error unmarshaling response: " (Unmarshal_chat w body);
      chat_result response
  end.

(** The error object of a decoded response. *)
Definition error_object (d : decoded) : option apiError :=
  match d with
  | DChat r => chat_Error r
  | DGemini r => gemini_Error r
  | DAnthropic r => anthropic_Error r
  end.

(** The characters of a string. *)
Fixpoint chars (s : string) : list ascii :=
  match s with
  | EmptyString => []
  | String ch rest => ch :: chars rest
  end.

(** A world with another transport. *)
Definition with_transport (rt : http_Client -> Request -> call Response)
    (w : World) : World := {|
  json_Marshal := json_Marshal w;
  url_Parse := url_Parse w;
  RoundTrip := rt;
  Unmarshal_chat := Unmarshal_chat w;
  Unmarshal_gemini := Unmarshal_gemini w;
  Unmarshal_anthropic := Unmarshal_anthropic w
|}.

(** The actions that log or wait, and call nothing. *)
Definition quiet (a : Maker.action) : Prop :=
  match a with
  | Maker.LogPrintln _ | Maker.Sleep _ => True
  | _ => False
  end.

(** A package [agents] that lists two templates and whose [GenerateCode]
    fails. *)
Definition failing : Maker.AgentsPackage unit unit := {|
  Maker.NewOpenAI := fun _ _ _ _ => tt;
  Maker.NewAgent := fun _ _ _ _ _ _ _ => Done tt;
  Maker.ListTemplates := fun _ =>
    [ ("go-gin", "REST API with Gin", "go");
      ("python-flask", "Flask service", "python") ];
  Maker.ListLanguages := fun _ => [ "go"; "python" ];
  Maker.Start := fun a => a;
  Maker.GenerateCode := fun a _ => (a, Some (errorString "generation failed"));
  Maker.Stop := fun a => a
|}.

(** * Properties *)

(** ** The provider table of [NewAPIClient] *)

(** The HTTP client a constructed API client holds: the one given, or the
    120 second default for a nil one. *)
Lemma NewAPIClient_fields ctx provider apiKey0 model0 useCustomBaseURL baseURL0 hc :
  ∃ a, NewAPIClient ctx provider apiKey0 model0 useCustomBaseURL baseURL0 hc
         = (Some a, None) ∧
       apiKey (fields a) = apiKey0 ∧ model (fields a) = model0 ∧
       httpClient (fields a) =
         Some (default {| Timeout := wrap64 (Second * 120) |} hc).
Proof.
  unfold NewAPIClient.
  repeat (case_bool_decide; cbn [orb]);
    (eexists; split; [reflexivity|]); by destruct hc.
Qed.

(** C8. For every provider name [NewAPIClient] returns a non-nil client
    and a nil error, and the client is chosen by name: "gemini" gives a
    GeminiClient, "openai" and the empty name an OpenAIClient, "anthropic"
    an AnthropicClient, "mistral" a MistralClient, "openrouter" an
    OpenRouterClient, and every other name an OpenAICompatibleClient. *)
Theorem NewAPIClient_provider_table ctx provider apiKey0 model0 useCustomBaseURL
    baseURL0 hc :
  ∃ a, NewAPIClient ctx provider apiKey0 model0 useCustomBaseURL baseURL0 hc
         = (Some a, None) ∧
       (provider = "gemini" → kind_of a = KGemini) ∧
       (provider = "openai" ∨ provider = "" → kind_of a = KOpenAI) ∧
       (provider = "anthropic" → kind_of a = KAnthropic) ∧
       (provider = "mistral" → kind_of a = KMistral) ∧
       (provider = "openrouter" → kind_of a = KOpenRouter) ∧
       (provider ∉ ["gemini"; "openai"; ""; "anthropic"; "mistral"; "openrouter"] →
        kind_of a = KOpenAICompatible).
Proof.
  unfold NewAPIClient.
  repeat (case_bool_decide; cbn [orb]);
    (eexists; split; [reflexivity|]); cbn [kind_of];
    repeat split; intros Hp; try reflexivity; exfalso;
    try (destruct Hp as [Hp|Hp]); try congruence;
    rewrite !not_elem_of_cons in Hp; destruct_and!; congruence.
Qed.

(** ** Empty system prompts *)

Lemma OpenAIClient_payload_empty c prompt :
  OpenAIClient_payload c "" prompt =
  OpenAIClient_payload c "You are a helpful assistant." prompt.
Proof. reflexivity. Qed.

Lemma OpenAIClient_payload_messages c systemPrompt prompt :
  OpenAIClient_payload c systemPrompt prompt !! "messages" =
  Some (JArray [ message "system"
                   (if bool_decide (systemPrompt = "")
                    then "You are a helpful assistant." else systemPrompt);
                 message "user" prompt ]).
Proof. unfold OpenAIClient_payload. by simplify_map_eq. Qed.

Lemma AnthropicClient_payload_system c systemPrompt prompt :
  AnthropicClient_payload c systemPrompt prompt !! "system" =
  if bool_decide (systemPrompt = "") then None else Some (JString systemPrompt).
Proof.
  unfold AnthropicClient_payload.
  repeat case_bool_decide; try done; by simplify_map_eq.
Qed.

(** From the marshalled payload to the transport: when the payload
    marshals and the request can be built, the client hands one request
    to its HTTP client, and what comes back decides the result. *)
Lemma Query_round_trip w a systemPrompt prompt bs hc :
  json_Marshal w (JObject (payload_of a systemPrompt prompt)) = Done bs →
  ctx (fields a) = Background →
  url_Parse w (url_of a) = None →
  httpClient (fields a) = Some hc →
  Query w a systemPrompt prompt = receive w a (RoundTrip w hc (request_of a bs)).
Proof.
  intros Hm Hctx Hurl Hhc.
  destruct a as [c|c|c|c|c|c]; cbn -[CanonicalMIMEHeaderKey] in *;
    unfold OpenAIClient_Query, GeminiClient_Query, AnthropicClient_Query,
      MistralClient_Query, OpenRouterClient_Query, OpenAICompatibleClient_Query,
      http_NewRequestWithContext, httpClient_Do, receive;
    rewrite Hm, Hctx, Hhc; cbn -[CanonicalMIMEHeaderKey]; rewrite Hurl; reflexivity.
Qed.

Lemma request_of_Body a bs : Body (request_of a bs) = bs.
Proof. by destruct a. Qed.

(** C9. With an empty system prompt each client substitutes in its own
    way, and what it substitutes is what it sends.  Whenever the request
    can be made, the body handed to the transport is the marshalled
    payload written out below, and the outcome of that round trip is the
    result of [Query].  OpenAIClient and OpenAICompatibleClient send the
    system message "You are a helpful assistant." in place of an empty
    system prompt (and the call is the call with that system prompt, in
    every world); GeminiClient sends the user prompt as it is, and
    otherwise the system prompt, a blank line and the user prompt, as the
    one text part; AnthropicClient sends a payload without a "system"
    field, and otherwise with the system prompt under it. *)
Theorem empty_system_prompt w c systemPrompt prompt :
  let msg role content :=
    JObject {[ "role" := JString role; "content" := JString content ]} in
  let sends a payload :=
    ∀ bs hc,
      json_Marshal w (JObject payload) = Done bs →
      ctx c = Background →
      url_Parse w (url_of a) = None →
      httpClient c = Some hc →
      Body (request_of a bs) = bs ∧
      Query w a systemPrompt prompt =
        receive w a (RoundTrip w hc (request_of a bs)) in
  (sends (OpenAIClient c)
     {[ "model" := JString (model c);
        "messages" := JArray
          [ msg "system" (if bool_decide (systemPrompt = "")
                          then "You are a helpful assistant." else systemPrompt);
            msg "user" prompt ] ]} ∧
   sends (OpenAICompatibleClient c)
     {[ "model" := JString (model c);
        "messages" := JArray
          [ msg "system" (if bool_decide (systemPrompt = "")
                          then "You are a helpful assistant." else systemPrompt);
            msg "user" prompt ] ]} ∧
   OpenAIClient_Query w c "" prompt =
     OpenAIClient_Query w c "You are a helpful assistant." prompt ∧
   OpenAICompatibleClient_Query w c "" prompt =
     OpenAICompatibleClient_Query w c "You are a helpful assistant." prompt) ∧
  (sends (GeminiClient c)
     {[ "contents" := JArray [ JObject {[ "parts" := JArray [ JObject {[ "text" :=
          JString (if bool_decide (systemPrompt = "") then prompt
                   else systemPrompt +:+
                        String "010"%char (String "010"%char prompt)) ]} ] ]} ] ]} ∧
   GeminiClient_fullPrompt "" prompt = prompt ∧
   (systemPrompt ≠ "" →
    GeminiClient_fullPrompt systemPrompt prompt =
      systemPrompt +:+ LF +:+ LF +:+ prompt)) ∧
  (sends (AnthropicClient c)
     (if bool_decide (systemPrompt = "")
      then {[ "model" := JString (model c);
              "messages" := JArray [ msg "user" prompt ];
              "max_tokens" := JNumber 4000 ]}
      else {[ "system" := JString systemPrompt;
              "model" := JString (model c);
              "messages" := JArray [ msg "user" prompt ];
              "max_tokens" := JNumber 4000 ]}) ∧
   AnthropicClient_payload c "" prompt !! "system" = None ∧
   (systemPrompt ≠ "" →
    AnthropicClient_payload c systemPrompt prompt !! "system" =
      Some (JString systemPrompt))).
Proof.
  intros msg sends.
  assert (∀ a payload,
            fields a = c → payload_of a systemPrompt prompt = payload →
            sends a payload) as Hsends.
  { intros a payload Hc <- bs hc Hm Hctx Hurl Hhc. split; [apply request_of_Body|].
    apply Query_round_trip; by rewrite ?Hc. }
  split_and!.
  - by apply Hsends.
  - by apply Hsends.
  - reflexivity.
  - reflexivity.
  - apply Hsends; [done|]. cbn. unfold GeminiClient_payload, GeminiClient_fullPrompt.
    by repeat case_bool_decide.
  - reflexivity.
  - intros Hne. unfold GeminiClient_fullPrompt. by rewrite bool_decide_true.
  - apply Hsends; [done|]. cbn. unfold AnthropicClient_payload.
    by repeat case_bool_decide.
  - by rewrite AnthropicClient_payload_system.
  - intros Hne. rewrite AnthropicClient_payload_system. by rewrite bool_decide_false.
Qed.

(** The Anthropic client asked without a system prompt: the payload it
    marshals has three fields, and the call is the round trip with its
    marshalled form. *)
Lemma empty_system_prompt_witness :
  let c := NewAnthropicClient Background "sk-test" "claude-3-haiku" false ""
             (Some {| Timeout := 120000000000 |}) in
  json_Marshal silent
    (JObject {[ "model" := JString "claude-3-haiku";
                "messages" := JArray
                  [ JObject {[ "role" := JString "user";
                               "content" := JString "hello" ]} ];
                "max_tokens" := JNumber 4000 ]}) = Done "{}" ∧
  Query silent (AnthropicClient c) "" "hello" =
    receive silent (AnthropicClient c)
      (RoundTrip silent {| Timeout := 120000000000 |}
         (request_of (AnthropicClient c) "{}")).
Proof.
  intros c. split; [reflexivity|].
  destruct (empty_system_prompt silent c "" "hello") as (_ & _ & HA & _).
  exact (proj2 (HA "{}" {| Timeout := 120000000000 |}
                   eq_refl eq_refl eq_refl eq_refl)).
Defined.

(** ** [Query]: errors and empty responses *)

Ltac step_call :=
  match goal with
  | |- context [try ?x] => destruct x; cbn
  | |- context [try_wrap _ ?x] => destruct x; cbn
  | |- context [match url_Parse ?w ?u with _ => _ end] => destruct (url_Parse w u); cbn
  | |- context [match ?c with nilContext => _ | Background => _ end] => destruct c; cbn
  | |- context [httpClient_Do _ ?h _] => destruct h; cbn
  end.

(** Each [Query] is its exchange followed by the reading of the decoded
    response. *)
Lemma Query_exchange w a systemPrompt prompt :
  Query w a systemPrompt prompt = exchange w a systemPrompt prompt ≫= respond.
Proof.
  destruct a as [c|c|c|c|c|c]; destruct c as [hc cx k m u]; cbn;
    unfold OpenAIClient_Query, GeminiClient_Query, AnthropicClient_Query,
      MistralClient_Query, OpenRouterClient_Query, OpenAICompatibleClient_Query,
      round_trip, http_NewRequestWithContext; cbn;
    repeat step_call; reflexivity.
Qed.

Lemma index_0_nonempty {A : Type} (x : A) (l : list A) : index (x :: l) 0 = Ok x.
Proof. reflexivity. Qed.

(** Reading a decoded response never panics: it fails exactly on the
    responses without content and otherwise returns the first text. *)
Lemma respond_cases d :
  (no_content d ∧ ∃ e, respond d = Err e) ∨
  (¬ no_content d ∧ ∃ text, respond d = Ok text ∧ first_text d = Some text).
Proof.
  destruct d as [[choices [e|]]|[cands [e|]]|[blocks [e|]]]; cbn;
    try (left; split; [left; by eexists | by eexists]).
  - destruct choices as [|c0 rest]; cbn.
    + left. split; [by right | by eexists].
    + right. split; [|by eexists]. intros [[? [=]]|[=]].
  - destruct cands as [|[[[|p0 ps]]] rest]; cbn.
    + left. split; [by right; left | by eexists].
    + left. split; [|by eexists]. right; right. by eexists.
    + right. split; [|by eexists].
      intros [[? [=]]|[[=]|(c0 & [= <-] & [=])]].
  - destruct blocks as [|b0 rest]; cbn.
    + left. split; [by right | by eexists].
    + right. split; [|by eexists]. intros [[? [=]]|[=]].
Qed.

Lemma respond_no_panic d : respond d ≠ Panic.
Proof. destruct (respond_cases d) as [[_ [e ->]]|[_ (t & -> & _)]]; done. Qed.

(** The error a response without content is turned into. *)
Lemma respond_error d e :
  respond d = Err e →
  (∃ msg, e = errorString ("API error: " +:+ msg)) ∨
  e = errorString "no choices returned from API" ∨
  e = errorString "no content returned from API".
Proof.
  destruct d as [[choices [er|]]|[cands [er|]]|[blocks [er|]]]; cbn;
    try (intros [= <-]; left; by eexists).
  - destruct choices; cbn; intros [= <-]; auto.
  - destruct cands as [|[[[|p0 ps]]] rest]; cbn; intros [= <-]; auto.
  - destruct blocks; cbn; intros [= <-]; auto.
Qed.

(** C10. Once a provider's response has been received and decoded, every
    client's [Query] returns without panicking; when the response carries
    an error object or an empty list of choices (candidates, content
    blocks) it returns an error, and it returns a text only when the
    response has no error object and a first choice, whose text it is. *)
Theorem Query_response_without_content w a systemPrompt prompt d :
  exchange w a systemPrompt prompt = Ok d →
  Query w a systemPrompt prompt ≠ Panic ∧
  (no_content d → ∃ e, Query w a systemPrompt prompt = Err e) ∧
  (∀ text, Query w a systemPrompt prompt = Ok text →
           ¬ no_content d ∧ first_text d = Some text).
Proof.
  intros Hx. rewrite Query_exchange, Hx. cbn.
  split; [apply respond_no_panic|].
  destruct (respond_cases d) as [[Hn [e He]]|[Hn (t & Ht & Hf)]]; rewrite ?He, ?Ht.
  - split; [by eexists | done].
  - split; [done | by intros ? [= <-]].
Qed.

Lemma Query_response_without_content_witness :
  exchange silent demo_client "" "hello"
    = Ok (DChat {| Choices := []; chat_Error := None |}) ∧
  Query silent demo_client "" "hello" ≠ Panic ∧
  (no_content (DChat {| Choices := []; chat_Error := None |}) →
   ∃ e, Query silent demo_client "" "hello" = Err e) ∧
  (∀ text, Query silent demo_client "" "hello" = Ok text →
           ¬ no_content (DChat {| Choices := []; chat_Error := None |}) ∧
           first_text (DChat {| Choices := []; chat_Error := None |}) = Some text).
Proof.
  split; [reflexivity|].
  apply (Query_response_without_content silent demo_client "" "hello").
  reflexivity.
Defined.

Lemma round_trip_no_panic {R : Type} w c url headers payload
    (unmarshal : string → call R) :
  is_Some (httpClient c) →
  round_trip w c url headers payload unmarshal ≠ Panic.
Proof.
  intros [hc Hhc]. unfold round_trip, http_NewRequestWithContext.
  rewrite Hhc.
  destruct (json_Marshal w (JObject payload)); cbn; [|done].
  destruct (ctx c); cbn; [done|].
  destruct (url_Parse w url); cbn; [done|].
  destruct (RoundTrip w hc _) as [resp|]; cbn; [|done].
  destruct (ReadAll resp) as [body|]; cbn; [|done].
  by destruct (unmarshal body).
Qed.

(** A client that holds an HTTP client never panics in [Query],
    whatever the library calls and the provider do. *)
Lemma Query_no_panic w a systemPrompt prompt :
  is_Some (httpClient (fields a)) → Query w a systemPrompt prompt ≠ Panic.
Proof.
  intros Hhc. rewrite Query_exchange.
  assert (exchange w a systemPrompt prompt ≠ Panic) as Hx.
  { destruct a as [c|c|c|c|c|c]; cbn [exchange fields] in *;
      match goal with
      | |- _ <$> ?rt ≠ Panic =>
          pose proof (round_trip_no_panic w c _ _ _ _ Hhc : rt ≠ Panic);
          by destruct rt
      end. }
  destruct (exchange w a systemPrompt prompt) as [d| |]; cbn; [|done|done].
  apply respond_no_panic.
Qed.

(** Every client [NewAPIClient] builds is total in [Query]: the call
    returns a text or an error and never panics, since the HTTP client it
    holds is never nil. *)
Theorem NewAPIClient_Query_total ctx provider apiKey0 model0 useCustomBaseURL
    baseURL0 hc w systemPrompt prompt :
  ∃ a, NewAPIClient ctx provider apiKey0 model0 useCustomBaseURL baseURL0 hc
         = (Some a, None) ∧
       Query w a systemPrompt prompt ≠ Panic.
Proof.
  destruct (NewAPIClient_fields ctx provider apiKey0 model0 useCustomBaseURL
              baseURL0 hc) as (a & Ha & _ & _ & Hhc).
  exists a. split; [done|]. apply Query_no_panic. by rewrite Hhc.
Qed.

(** A client struct built directly with a nil HTTP client panics as soon
    as the request is sent. *)
Example Query_nil_httpClient_panics :
  Query silent
    (OpenAIClient (NewOpenAIClient Background "sk-test" "gpt-4o-mini" false "" None))
    "" "hello" = Panic.
Proof. reflexivity. Qed.

(** The endpoint of a constructed client: the base URL given when
    [useCustomBaseURL] is set and the URL is not empty, and the provider's
    own endpoint otherwise (the OpenAI one for an unknown provider). *)
Theorem NewAPIClient_endpoint ctx provider apiKey0 model0 useCustomBaseURL
    baseURL0 hc :
  ∃ a, NewAPIClient ctx provider apiKey0 model0 useCustomBaseURL baseURL0 hc
         = (Some a, None) ∧
       (useCustomBaseURL = true ∧ baseURL0 ≠ "" → baseURL (fields a) = baseURL0) ∧
       (useCustomBaseURL = false ∨ baseURL0 = "" →
        baseURL (fields a) =
          match kind_of a with
          | KOpenAI | KOpenAICompatible => "https://api.openai.com/v1/chat/completions"
          | KGemini => "https://generativelanguage.googleapis.com/v1/models/"
                       +:+ model0 +:+ ":generateContent"
          | KAnthropic => "https://api.anthropic.com/v1/messages"
          | KMistral => "https://api.mistral.ai/v1/chat/completions"
          | KOpenRouter => "https://openrouter.ai/api/v1/chat/completions"
          end).
Proof.
  unfold NewAPIClient.
  repeat (case_bool_decide; cbn [orb]);
    (eexists; split; [reflexivity|]);
    cbn [kind_of fields baseURL NewGeminiClient NewOpenAIClient
         NewAnthropicClient NewMistralClient NewOpenRouterClient
         NewOpenAICompatibleClient mk];
    unfold endpoint_or;
    (split; [intros [-> Hne] | intros [-> | ->]]); cbn [andb orb negb];
    rewrite ?bool_decide_true by done; rewrite ?bool_decide_false by done;
    try done; by destruct useCustomBaseURL.
Qed.

Example wrapped_cause :
  Error (Errorf_w "error sending request: " (errorString "timeout"))
    = "error sending request: timeout" ∧
  Unwrap (Errorf_w "error sending request: " (errorString "timeout"))
    = Some (errorString "timeout").
Proof. split; reflexivity. Qed.

Example strings_Contains_examples :
  strings_Contains "https://host/v1?alt=sse" "?" = true ∧
  strings_Contains "https://host/v1" "?" = false ∧
  GeminiClient_url (NewGeminiClient Background "KEY" "gemini-pro" false "" None) =
    "https://generativelanguage.googleapis.com/v1/models/gemini-pro:generateContent?key=KEY" ∧
  GeminiClient_url (NewGeminiClient Background "KEY" "gemini-pro" true
                      "https://host/v1?alt=sse" None) =
    "https://host/v1?alt=sse&key=KEY".
Proof. by vm_compute. Qed.

(** An exchange fails with the marshalling error as it is, or with the
    error of the failing step wrapped under the step's prefix. *)
Lemma round_trip_error {R : Type} w c url headers payload
    (unmarshal : string → call R) e :
  round_trip w c url headers payload unmarshal = Err e →
  json_Marshal w (JObject payload) = Failed e ∨
  (∃ cause, e = Errorf_w "error creating request: " cause) ∨
  (∃ cause, e = Errorf_w "error sending request: " cause) ∨
  (∃ cause, e = Errorf_w "error reading response: " cause) ∨
  (∃ cause, e = Errorf_w "error unmarshaling response: " cause).
Proof.
  unfold round_trip, http_NewRequestWithContext.
  destruct (json_Marshal w (JObject payload)) as [bs|err]; cbn;
    [|intros [= ->]; by left].
  intros Hrest. right. revert Hrest.
  destruct (ctx c); cbn; [intros [= <-]; left; by eexists|].
  destruct (url_Parse w url); cbn; [intros [= <-]; left; by eexists|].
  destruct (httpClient c) as [hc|]; cbn; [|done].
  destruct (RoundTrip w hc _) as [resp|err]; cbn;
    [|intros [= <-]; right; left; by eexists].
  destruct (ReadAll resp) as [body|err]; cbn;
    [|intros [= <-]; right; right; left; by eexists].
  destruct (unmarshal body) as [r|err]; cbn; [done|].
  intros [= <-]. right; right; right. by eexists.
Qed.

Lemma fmap_Err {A B : Type} (f : A → B) (m : result A) e :
  f <$> m = Err e → m = Err e.
Proof. destruct m; cbv; congruence. Qed.

(** The status code of the response plays no part in an exchange. *)
Lemma round_trip_with_status {R : Type} f w c url headers payload
    (unmarshal : string → call R) :
  round_trip (with_status f w) c url headers payload unmarshal =
  round_trip w c url headers payload unmarshal.
Proof.
  unfold round_trip, http_NewRequestWithContext, httpClient_Do. cbn.
  destruct (json_Marshal w (JObject payload)); cbn; [|done].
  destruct (ctx c); cbn; [done|].
  destruct (url_Parse w url); cbn; [done|].
  destruct (httpClient c) as [hc|]; cbn; [|done].
  by destruct (RoundTrip w hc _).
Qed.

Lemma Query_with_status f w a systemPrompt prompt :
  Query (with_status f w) a systemPrompt prompt = Query w a systemPrompt prompt.
Proof.
  rewrite !Query_exchange. f_equal.
  destruct a; cbn [exchange]; by rewrite round_trip_with_status.
Qed.

Lemma exchange_error w a systemPrompt prompt e :
  exchange w a systemPrompt prompt = Err e →
  (∃ payload, json_Marshal w (JObject payload) = Failed e) ∨
  (∃ cause, e = Errorf_w "error creating request: " cause) ∨
  (∃ cause, e = Errorf_w "error sending request: " cause) ∨
  (∃ cause, e = Errorf_w "error reading response: " cause) ∨
  (∃ cause, e = Errorf_w "error unmarshaling response: " cause).
Proof.
  destruct a; cbn [exchange]; intros Hx%fmap_Err%round_trip_error;
    (destruct Hx as [Hx|Hx]; [left; by eexists | by right]).
Qed.

(** A rate-limited call (429) and an unauthenticated call (401) that get
    the same error object fail with the same error value: no reading of
    the value can tell the design document's Transient from its Fatal. *)
Lemma Query_error_class_counterexample :
  ¬ ∃ classify : error → ErrorClass,
      ∀ status msg a systemPrompt prompt e k,
        Query (refusing status msg) a systemPrompt prompt = Err e →
        class_of_status status = Some k →
        classify e = k.
Proof.
  intros [classify Hc].
  assert (classify (errorString "API error: denied") = Transient) as Ht
    by (by apply (Hc 429 "denied" demo_client "" "hello")).
  assert (classify (errorString "API error: denied") = Fatal) as Hf
    by (by apply (Hc 401 "denied" demo_client "" "hello")).
  congruence.
Qed.

(** C3, as amended. An error returned by [Query] is a plain error value
    that tells the step that failed and nothing else: the marshalling
    error itself, or the cause wrapped under "error creating request: ",
    "error sending request: ", "error reading response: " or "error
    unmarshaling response: ", or "API error: " with the provider's
    message, or "no choices (content) returned from API".  The status
    code of the response is not consulted: the same error comes back
    whatever the status.  A worker's TaskResult for the task carries this
    error value as it is. *)
Theorem Query_error_unclassified w a systemPrompt prompt e :
  Query w a systemPrompt prompt = Err e →
  ((∃ payload, json_Marshal w (JObject payload) = Failed e) ∨
   (∃ cause, e = Errorf_w "error creating request: " cause) ∨
   (∃ cause, e = Errorf_w "error sending request: " cause) ∨
   (∃ cause, e = Errorf_w "error reading response: " cause) ∨
   (∃ cause, e = Errorf_w "error unmarshaling response: " cause) ∨
   (∃ msg, e = errorString ("API error: " +:+ msg)) ∨
   e = errorString "no choices returned from API" ∨
   e = errorString "no content returned from API") ∧
  (∀ f, Query (with_status f w) a systemPrompt prompt = Err e) ∧
  (∀ t, Engine.systemPrompt t = systemPrompt → Engine.userPrompt t = prompt →
        Engine.execute (as_client w a) t =
          {| Engine.result_id := Engine.task_id t; Engine.outcome := Failed e |}).
Proof.
  intros HQ. split_and!.
  - rewrite Query_exchange in HQ.
    destruct (exchange w a systemPrompt prompt) as [d|e'|] eqn:Hx; cbn in HQ; [| |done].
    + apply respond_error in HQ. tauto.
    + injection HQ as ->. apply exchange_error in Hx. tauto.
  - intros f. by rewrite Query_with_status.
  - intros t <- <-. unfold Engine.execute, as_client. by rewrite HQ.
Qed.

Lemma Query_error_unclassified_witness :
  Query (refusing 429 "denied") demo_client "" "hello"
    = Err (errorString "API error: denied") ∧
  (∀ f, Query (with_status f (refusing 429 "denied")) demo_client "" "hello"
          = Err (errorString "API error: denied")).
Proof.
  split; [reflexivity|].
  apply (Query_error_unclassified (refusing 429 "denied") demo_client "" "hello").
  reflexivity.
Defined.

(** ** Timeouts *)

Lemma wrap64_small z : (- 2 ^ 63 ≤ z < 2 ^ 63)%Z → wrap64 z = z.
Proof.
  intros Hz. unfold wrap64.
  rewrite Z.mod_small by lia. lia.
Qed.

(** [maker -timeout 0 ...] builds an HTTP client without a deadline. *)
Lemma main_httpClient_deadline_counterexample :
  ¬ ∀ fl : Maker.Flags, is_Some (deadline (Maker.main_httpClient fl)).
Proof.
  intros Hall.
  destruct (Hall (timeout_flags 0 ["hello"])) as [d Hd].
  discriminate Hd.
Qed.

(** C6, as amended. The maker command line builds its HTTP client with
    a timeout of the [-timeout] flag's value in seconds; when that value
    is at least 1 (and at most 9223372036, the largest number of seconds
    a Duration holds) every request made through the client has that
    deadline.  [NewAPIClient], given a nil HTTP client, substitutes one
    with a deadline of 120 seconds; a client it is given it uses as it
    is, with that client's timeout. *)
Theorem HTTP_client_deadline (fl : Maker.Flags) ctx provider apiKey0 model0
    useCustomBaseURL baseURL0 :
  (1 ≤ Maker.timeout fl ≤ 9223372036)%Z →
  deadline (Maker.main_httpClient fl) = Some (Maker.timeout fl * Second)%Z ∧
  (∃ a, NewAPIClient ctx provider apiKey0 model0 useCustomBaseURL baseURL0 None
          = (Some a, None) ∧
        httpClient (fields a) = Some {| Timeout := 120 * Second |} ∧
        deadline {| Timeout := 120 * Second |} = Some (120 * Second)%Z) ∧
  (∀ hc, ∃ a, NewAPIClient ctx provider apiKey0 model0 useCustomBaseURL baseURL0
                (Some hc) = (Some a, None) ∧
              httpClient (fields a) = Some hc).
Proof.
  intros Ht. split_and!.
  - unfold Maker.main_httpClient, deadline, Second in *. cbn [Timeout].
    rewrite (wrap64_small (Maker.timeout fl)) by lia.
    rewrite wrap64_small by lia.
    by rewrite bool_decide_true by lia.
  - destruct (NewAPIClient_fields ctx provider apiKey0 model0 useCustomBaseURL
                baseURL0 None) as (a & Ha & _ & _ & Hhc).
    exists a. by split_and!.
  - intros hc.
    destruct (NewAPIClient_fields ctx provider apiKey0 model0 useCustomBaseURL
                baseURL0 (Some hc)) as (a & Ha & _ & _ & Hhc).
    by exists a.
Qed.

Lemma HTTP_client_deadline_witness :
  (1 ≤ Maker.timeout Maker.defaults ≤ 9223372036)%Z ∧
  deadline (Maker.main_httpClient Maker.defaults) = Some 120000000000%Z.
Proof.
  split; [by compute|].
  apply (HTTP_client_deadline Maker.defaults Background "openai" "sk-test"
           "gpt-4o-mini" false "").
  by compute.
Defined.

(** ** Exit codes of [maker] *)

(** With [-list-templates] the process exits with 0 although no prompt
    word is given. *)
Lemma exit_code_without_prompt_counterexample :
  ¬ ∀ (fl : Maker.Flags) (OPENAI_API_KEY : string),
      Maker.args fl = [] → Maker.exit_code succeeding OPENAI_API_KEY fl = 1%Z.
Proof.
  intros Hall.
  specialize (Hall listing_flags "" eq_refl).
  discriminate Hall.
Qed.

Section ExitCodes.
Context {Agent OpenAI : Type} (agents : Maker.AgentsPackage Agent OpenAI).
Variables (OPENAI_API_KEY : string) (fl : Maker.Flags).

Lemma resolve_key_None :
  Maker.resolve_key OPENAI_API_KEY fl = None ↔
  Maker.openai_key fl = "" ∧ OPENAI_API_KEY = "".
Proof.
  unfold Maker.resolve_key. repeat case_bool_decide; naive_solver.
Qed.

(** [GenerateCode] is called at most once, after [Start], and the exit
    code follows its result. *)
Lemma main_GenerateCode_exit prompt r :
  Maker.CallGenerateCode prompt r ∈ Maker.trace agents OPENAI_API_KEY fl →
  Maker.exit_code agents OPENAI_API_KEY fl =
    match r with Some _ => 1%Z | None => 0%Z end.
Proof.
  unfold Maker.trace, Maker.exit_code, Maker.main.
  destruct (Maker.resolve_key _ _); cbn; [|set_solver].
  destruct (Maker.NewAgent _ _ _ _ _ _ _ _); cbn; [|set_solver].
  destruct (Maker.list_templates fl); cbn.
  { rewrite !elem_of_cons, list_elem_of_In, in_map_iff.
    intros [[=]|[[=]|([[??]?] & [=] & _)]]. }
  destruct (Maker.list_languages fl); cbn.
  { rewrite !elem_of_cons, list_elem_of_In, in_map_iff.
    intros [[=]|[[=]|(? & [=] & _)]]. }
  case_bool_decide; cbn; [set_solver|].
  destruct (Maker.GenerateCode _ _ _) as [a' [err|]]; cbn;
    rewrite !elem_of_cons, elem_of_nil; intros Hin;
    destruct_or!; try done; by simplify_eq.
Qed.

(** C4, as amended. The maker process exits with 0 when [GenerateCode]
    returns no error, and with 1 when the API key is absent from both the
    [-openai-key] flag and OPENAI_API_KEY, when no positional prompt word
    is given and neither [-list-templates] nor [-list-languages] is set,
    and when [GenerateCode] returns an error. *)
Theorem maker_exit_code :
  (∀ prompt, Maker.CallGenerateCode prompt None
               ∈ Maker.trace agents OPENAI_API_KEY fl →
             Maker.exit_code agents OPENAI_API_KEY fl = 0%Z) ∧
  (Maker.openai_key fl = "" ∧ OPENAI_API_KEY = "" →
   Maker.exit_code agents OPENAI_API_KEY fl = 1%Z) ∧
  (Maker.args fl = [] ∧ Maker.list_templates fl = false
     ∧ Maker.list_languages fl = false →
   Maker.exit_code agents OPENAI_API_KEY fl = 1%Z) ∧
  (∀ prompt err, Maker.CallGenerateCode prompt (Some err)
                   ∈ Maker.trace agents OPENAI_API_KEY fl →
                 Maker.exit_code agents OPENAI_API_KEY fl = 1%Z).
Proof.
  split_and!.
  - intros prompt Hin. by rewrite (main_GenerateCode_exit _ _ Hin).
  - intros Hkey%resolve_key_None.
    unfold Maker.exit_code, Maker.main. by rewrite Hkey.
  - intros (Hargs & Hlt & Hll).
    unfold Maker.exit_code, Maker.main. rewrite Hargs, Hlt, Hll.
    destruct (Maker.resolve_key _ _); cbn; [|done].
    by destruct (Maker.NewAgent _ _ _ _ _ _ _ _).
  - intros prompt err Hin. by rewrite (main_GenerateCode_exit _ _ Hin).
Qed.

(** A run reaches [GenerateCode] exactly when the key is there, the agent
    was built, nothing is listed and a prompt word is given. *)
Lemma main_reaches_GenerateCode key agent :
  Maker.resolve_key OPENAI_API_KEY fl = Some key →
  Maker.NewAgent agents Background
    (Maker.NewOpenAI agents Background key (Maker.model_name fl)
       (Maker.main_httpClient fl))
    (Maker.output_dir fl) (Maker.base_package fl) (Maker.template fl)
    (Maker.language fl) (Maker.worker_count fl) = Done agent →
  Maker.list_templates fl = false → Maker.list_languages fl = false →
  Maker.args fl ≠ [] →
  ∃ r, Maker.CallGenerateCode (strings_Join (Maker.args fl) " ") r
         ∈ Maker.trace agents OPENAI_API_KEY fl.
Proof.
  intros Hkey Hnew Hlt Hll Hargs.
  unfold Maker.trace, Maker.main. rewrite Hkey, Hnew, Hlt, Hll.
  rewrite bool_decide_false by (by destruct (Maker.args fl)).
  destruct (Maker.GenerateCode _ _ _) as [a' [err|]]; cbn;
    [exists (Some err) | exists None]; set_solver.
Qed.

End ExitCodes.

(** ** The worker pool *)

Section PoolFacts.
Import Engine.
Open Scope list_scope.
Open Scope nat_scope.
Variable client : GenerationClient.

Lemma omap_insert_held (slots : list (option GenerationTask)) i t s :
  slots !! i = Some (Some t) →
  omap id (<[ i := s ]> slots) ≡ₚ
    match s with Some t' => t' :: [] | None => [] end ++
    omap id (take i slots) ++ omap id (drop (S i) slots).
Proof.
  intros Hi.
  rewrite insert_take_drop by (by eapply lookup_lt_Some).
  rewrite omap_app. cbn. destruct s; cbn; [|done].
  by rewrite Permutation_middle.
Qed.

Lemma omap_lookup_split (slots : list (option GenerationTask)) i s :
  slots !! i = Some s →
  omap id slots =
    omap id (take i slots) ++
    match s with Some t => [t] | None => [] end ++ omap id (drop (S i) slots).
Proof.
  intros Hi. rewrite <- (take_drop_middle slots i s Hi) at 1.
  rewrite omap_app. by destruct s.
Qed.

Lemma accounts_submit N tasks : accounts client tasks (submit N tasks).
Proof.
  unfold accounts, submit, in_flight; cbn.
  replace (omap id (replicate N None)) with (@nil GenerationTask); [reflexivity|].
  induction N; cbn; congruence.
Qed.

Lemma accounts_step tasks p i :
  accounts client tasks p → accounts client tasks (worker_step client p i).
Proof.
  unfold accounts, worker_step, in_flight. intros Hacc.
  destruct (workers p !! i) as [[t|]|] eqn:Hi; [| |done].
  - cbn. rewrite <- Hacc.
    rewrite (omap_lookup_split _ _ _ Hi).
    rewrite (omap_insert_held _ _ _ None Hi). cbn.
    rewrite !map_app. cbn. rewrite <- !app_assoc. cbn.
    apply Permutation_app_head.
    rewrite Permutation_middle. apply Permutation_app_head.
    by rewrite Permutation_middle.
  - destruct (queue p) as [|t rest] eqn:Hq; [by rewrite Hq|]. cbn.
    rewrite <- Hacc.
    apply Permutation_app_head.
    rewrite (omap_lookup_split _ _ _ Hi).
    rewrite insert_take_drop by (by eapply lookup_lt_Some).
    rewrite omap_app. cbn. rewrite !map_app. cbn.
    rewrite <- !app_assoc. apply Permutation_app_head.
    symmetry. rewrite <- Permutation_middle. done.
Qed.

Lemma run_cons i sched p :
  run client (i :: sched) p = run client sched (worker_step client p i).
Proof. reflexivity. Qed.

Lemma run_app s1 s2 p :
  run client (s1 ++ s2) p = run client s2 (run client s1 p).
Proof. apply foldl_app. Qed.

Lemma accounts_run tasks sched p :
  accounts client tasks p → accounts client tasks (run client sched p).
Proof.
  revert p. induction sched as [|i sched IH]; intros p Hacc; [done|].
  rewrite run_cons. apply IH. by apply accounts_step.
Qed.

Lemma length_workers_step p i :
  length (workers (worker_step client p i)) = length (workers p).
Proof.
  unfold worker_step.
  destruct (workers p !! i) as [[t|]|]; cbn; [by rewrite length_insert| |done].
  destruct (queue p); cbn; [done | by rewrite length_insert].
Qed.

Lemma length_workers_run sched p :
  length (workers (run client sched p)) = length (workers p).
Proof.
  revert p. induction sched as [|i sched IH]; intros p; [done|].
  by rewrite run_cons, IH, length_workers_step.
Qed.

(** Letting the workers that hold a task finish it leaves every worker
    idle and the queue as it was. *)
Lemma run_busy_from (pre suf : list (option GenerationTask)) q rs :
  Forall (λ s, s = None) pre →
  run client (busy_from (length pre) suf)
      {| queue := q; workers := pre ++ suf; results := rs |} =
  {| queue := q;
     workers := replicate (length (pre ++ suf)) None;
     results := rs ++ map (execute client) (omap id suf) |}.
Proof.
  revert pre rs. induction suf as [|[t|] suf IH]; intros pre rs Hpre.
  - cbn. rewrite !app_nil_r. f_equal.
    induction Hpre as [|s pre -> _ IHp]; cbn; congruence.
  - cbn [busy_from]. rewrite run_cons. unfold worker_step. cbn [workers].
    rewrite list_lookup_middle by done.
    cbn [queue results].
    replace (<[length pre:=None]> (pre ++ Some t :: suf))
      with ((pre ++ [None]) ++ suf).
    2:{ rewrite <- app_assoc. cbn.
        by rewrite (insert_app_r_alt pre _ (length pre)), Nat.sub_diag. }
    replace (S (length pre)) with (length (pre ++ [None]))
      by (rewrite length_app; cbn; lia).
    rewrite IH by (apply Forall_app; split; [done | by constructor]).
    f_equal.
    + f_equal. rewrite !length_app. cbn. lia.
    + cbn. by rewrite <- app_assoc.
  - cbn [busy_from].
    replace (pre ++ None :: suf) with ((pre ++ [None]) ++ suf)
      by (by rewrite <- app_assoc).
    replace (S (length pre)) with (length (pre ++ [None]))
      by (rewrite length_app; cbn; lia).
    by rewrite IH by (apply Forall_app; split; [done | by constructor]).
Qed.

(** With every worker idle, worker 0 alone works the queue off. *)
Lemma run_worker_0 N q rs :
  0 < N →
  run client (replicate (2 * length q) 0)
      {| queue := q; workers := replicate N None; results := rs |} =
  {| queue := []; workers := replicate N None;
     results := rs ++ map (execute client) q |}.
Proof.
  intros HN. revert rs. induction q as [|t q IH]; intros rs.
  - cbn. by rewrite app_nil_r.
  - replace (2 * length (t :: q)) with (S (S (2 * length q))) by (cbn; lia).
    cbn [replicate]. rewrite !run_cons.
    destruct N as [|N]; [lia|].
    change (worker_step client (worker_step client _ 0) 0)
      with {| queue := q; workers := replicate (S N) None;
              results := rs ++ [execute client t] |}.
    rewrite IH. cbn. by rewrite <- app_assoc.
Qed.

(** Awaiting the drain signal always ends drained, with the results of
    the tasks that were held or queued appended. *)
Lemma await_drain_spec p :
  0 < length (workers p) →
  drained (await_drain client p) ∧
  results (await_drain client p) =
    results p ++ map (execute client) (in_flight p)
              ++ map (execute client) (queue p).
Proof.
  intros HN. unfold await_drain, busy.
  destruct p as [q ws rs]. cbn [workers queue results] in *.
  pose proof (run_busy_from [] ws q rs (Forall_nil_2 _)) as Hb.
  cbn [length app] in Hb. rewrite Hb. cbn [queue].
  rewrite run_worker_0 by done.
  split.
  - split; [done|]. cbn. by apply Forall_replicate.
  - cbn. by rewrite <- app_assoc.
Qed.

End PoolFacts.

Section PoolResults.
Import Engine.
Open Scope list_scope.
Open Scope nat_scope.

Lemma length_build_tasks a tmpl prompt :
  length (build_tasks a tmpl prompt) = length (files tmpl).
Proof. unfold build_tasks. by rewrite length_imap. Qed.

(** The identifier of a built task is its position. *)
Lemma build_tasks_lookup a tmpl prompt t :
  t ∈ build_tasks a tmpl prompt →
  build_tasks a tmpl prompt !! task_id t = Some t.
Proof.
  unfold build_tasks. intros (i & f & -> & Hf)%elem_of_lookup_imap.
  cbn. by rewrite list_lookup_imap, Hf.
Qed.

Lemma map_imap_pointwise {A B C : Type} (g : B → C) (f : nat → A → B)
    (h : A → C) (l : list A) :
  (∀ i x, g (f i x) = h x) → map g (imap f l) = map h l.
Proof.
  revert f. induction l as [|x l IH]; intros f Hf; [done|].
  cbn. rewrite Hf. f_equal. apply IH. intros i y. apply Hf.
Qed.

Lemma build_tasks_paths a tmpl prompt :
  map (λ t, path (owner t)) (build_tasks a tmpl prompt) = map path (files tmpl).
Proof. unfold build_tasks. by apply map_imap_pointwise. Qed.

Lemma result_paths client a tmpl prompt :
  map (result_path (build_tasks a tmpl prompt))
      (map (execute client) (build_tasks a tmpl prompt)) = map path (files tmpl).
Proof.
  rewrite <- (build_tasks_paths a tmpl prompt).
  rewrite map_map. apply map_ext_in. intros t Ht%list_elem_of_In.
  unfold result_path. cbn.
  by rewrite (build_tasks_lookup _ _ _ _ Ht).
Qed.

Lemma omap_idle (slots : list (option GenerationTask)) :
  Forall (λ s, s = None) slots → omap id slots = [].
Proof. induction 1 as [|s ws -> _ IH]; cbn; congruence. Qed.

(** A pool that drains on its own has produced, in some order, the
    result of every task. *)
Lemma drained_results client N tasks sched :
  drained (run client sched (submit N tasks)) →
  results (run client sched (submit N tasks)) ≡ₚ map (execute client) tasks.
Proof.
  intros [Hq Hw].
  pose proof (accounts_run client tasks sched _ (accounts_submit client N tasks))
    as Hacc.
  unfold accounts, in_flight in Hacc. rewrite Hq in Hacc.
  rewrite (omap_idle _ Hw) in Hacc.
  cbn in Hacc. by rewrite app_nil_r in Hacc.
Qed.

(** Whatever the interleaving, a pool of at least one worker drains with
    the results of all tasks, in some order. *)
Lemma await_drain_results client N tasks sched :
  0 < N →
  drained (await_drain client (run client sched (submit N tasks))) ∧
  results (await_drain client (run client sched (submit N tasks)))
    ≡ₚ map (execute client) tasks.
Proof.
  intros HN.
  destruct (await_drain_spec client (run client sched (submit N tasks)))
    as [Hd Hr].
  { rewrite length_workers_run. cbn. by rewrite length_replicate. }
  split; [done|]. rewrite Hr.
  apply (accounts_run client tasks sched _ (accounts_submit client N tasks)).
Qed.

(** C1. For a template with K file specs and a pool of N workers, 1 <= N
    <= K, whatever the interleaving of the workers: the pool drains, and
    has then produced exactly K TaskResults, the results of the K tasks
    in some order, one per file path; the result of every task is among
    them, whether or not other tasks failed; and another worker count or
    interleaving, also one that reaches the drain signal by itself, gives
    the same results up to their order. *)
Theorem worker_pool_results (client : GenerationClient) (a : Agent)
    (tmpl : Template) (prompt : string) (N : nat) (sched : list nat) :
  let K := length (files tmpl) in
  let tasks := build_tasks a tmpl prompt in
  let pool := await_drain client (run client sched (submit N tasks)) in
  1 ≤ N ≤ K →
  drained pool ∧
  length (results pool) = K ∧
  results pool ≡ₚ map (execute client) tasks ∧
  map (result_path tasks) (results pool) ≡ₚ map path (files tmpl) ∧
  (∀ t, t ∈ tasks → execute client t ∈ results pool) ∧
  (∀ N' sched', 1 ≤ N' ≤ K →
     results (await_drain client (run client sched' (submit N' tasks)))
       ≡ₚ results pool) ∧
  (∀ sched', drained (run client sched' (submit N tasks)) →
     results (run client sched' (submit N tasks)) ≡ₚ results pool).
Proof.
  intros K tasks pool [HN _].
  destruct (await_drain_results client N tasks sched) as [Hd Hperm]; [lia|].
  fold pool in Hd, Hperm.
  split_and!.
  - exact Hd.
  - rewrite Hperm, length_map. apply length_build_tasks.
  - exact Hperm.
  - rewrite Hperm. unfold tasks. by rewrite result_paths.
  - intros t Ht. rewrite Hperm. apply list_elem_of_In, in_map.
    by apply list_elem_of_In.
  - intros N' sched' [HN' _]. rewrite Hperm.
    apply await_drain_results. lia.
  - intros sched' Hd'. rewrite Hperm. by apply drained_results.
Qed.

End PoolResults.

(** ** Runs of the agent *)

Section AgentFacts.
Import Engine.
Open Scope list_scope.
Open Scope nat_scope.
Variable write_file : string → string → option error.

(** Consuming the results emits one [file] or [error] event per result,
    for the result's path, records the failures the [error] events report
    and changes nothing else of the agent's state. *)
Lemma consume_all tasks rs a :
  ∃ evs,
    emitted (foldl (consume write_file tasks) a rs) = emitted a ++ evs ∧
    failures (foldl (consume write_file tasks) a rs)
      = failures a ++ omap failure_of evs ∧
    map event_file evs = map (result_path tasks) rs ∧
    Forall (λ e, is_file_or_error e = true) evs ∧
    state (foldl (consume write_file tasks) a rs) = state a ∧
    workerCount (foldl (consume write_file tasks) a rs) = workerCount a.
Proof.
  revert a. induction rs as [|r rs IH]; intros a.
  - exists []. cbn. by rewrite !app_nil_r.
  - cbn [foldl].
    destruct (IH (consume write_file tasks a r))
      as (evs & Hev & Hfl & Hpaths & Hkind & Hst & Hwc).
    assert (∃ ev, emitted (consume write_file tasks a r) = emitted a ++ [ev] ∧
                  failures (consume write_file tasks a r)
                    = failures a ++ omap failure_of [ev] ∧
                  event_file ev = result_path tasks r ∧
                  is_file_or_error ev = true ∧
                  state (consume write_file tasks a r) = state a ∧
                  workerCount (consume write_file tasks a r) = workerCount a)
      as (ev & Hev1 & Hfl1 & Hp1 & Hk1 & Hst1 & Hwc1).
    { unfold consume. destruct (outcome r) as [content|err].
      - destruct (write_file _ content) as [err|].
        + exists (EvError (result_path tasks r) err). by cbn.
        + exists (EvFile (result_path tasks r)). cbn. by rewrite app_nil_r.
      - exists (EvError (result_path tasks r) err). by cbn. }
    exists (ev :: evs). split_and!.
    + rewrite Hev, Hev1. by rewrite <- app_assoc.
    + rewrite Hfl, Hfl1. rewrite <- app_assoc. f_equal.
      by destruct ev.
    + cbn. by rewrite Hp1, Hpaths.
    + by constructor.
    + by rewrite Hst, Hst1.
    + by rewrite Hwc, Hwc1.
Qed.

(** What a run from the Started state does. *)
Lemma GenerateCode_Started sched a prompt tmpl :
  state a = Started →
  Resolve (catalog a) (templateName a) = Some tmpl →
  0 < workerCount a →
  ∃ evs,
    length evs = length (files tmpl) ∧
    Forall (λ e, is_file_or_error e = true) evs ∧
    map event_file evs ≡ₚ map path (files tmpl) ∧
    match failures a ++ omap failure_of evs with
    | [] =>
        (GenerateCode write_file sched a prompt).2 = None ∧
        emitted (GenerateCode write_file sched a prompt).1 =
          emitted a ++ EvStart (length (files tmpl)) :: evs
                    ++ [EvComplete "generation complete"] ∧
        state (GenerateCode write_file sched a prompt).1 = Completed
    | failed =>
        (GenerateCode write_file sched a prompt).2
          = Some (PartialGenerationError failed) ∧
        emitted (GenerateCode write_file sched a prompt).1 =
          emitted a ++ EvStart (length (files tmpl)) :: evs ∧
        state (GenerateCode write_file sched a prompt).1 = Failed_
    end.
Proof.
  intros Hst Hres HN. unfold GenerateCode. rewrite Hst. cbn [set_state catalog templateName].
  rewrite Hres.
  set (a1 := Emit _ _).
  set (tasks := build_tasks _ tmpl prompt).
  set (pool := await_drain _ _).
  destruct (consume_all tasks (results pool) a1)
    as (evs & Hev & Hfl & Hpaths & Hkind & Hst' & Hwc).
  assert (results pool ≡ₚ map (execute (generation a)) tasks) as Hperm
    by apply (await_drain_results (generation a) (workerCount a) tasks sched HN).
  exists evs. split_and!.
  - rewrite <- (length_map event_file), Hpaths, length_map, Hperm, length_map.
    apply length_build_tasks.
  - done.
  - rewrite Hpaths, Hperm. unfold tasks. by rewrite result_paths.
  - replace (failures a) with (failures a1) by done.
    rewrite <- Hfl.
    set (final := foldl (consume write_file tasks) a1 (results pool)) in *.
    assert (emitted a1 = emitted a ++ [EvStart (length (files tmpl))]) as Ha1.
    { subst a1 tasks. cbn [emitted Emit set_state]. by rewrite length_build_tasks. }
    destruct (failures final) as [|f fs] eqn:Hf;
      cbn [fst snd emitted state Emit set_state];
      (split_and!; [done| |done]); rewrite Hev, Ha1, <- !app_assoc; done.
Qed.

Lemma GenerateCode_workerCount sched a prompt :
  workerCount (GenerateCode write_file sched a prompt).1 = workerCount a.
Proof.
  unfold GenerateCode. destruct (state a); try done.
  cbn [set_state catalog templateName].
  destruct (Resolve _ _) as [tmpl|]; [|done].
  set (a1 := Emit _ _). set (tasks := build_tasks _ tmpl prompt).
  set (pool := await_drain _ _).
  destruct (consume_all tasks (results pool) a1) as (_ & _ & _ & _ & _ & _ & Hwc).
  by destruct (failures _); cbn [fst workerCount Emit set_state]; rewrite Hwc.
Qed.

Lemma GenerateCode_begun sched a prompt :
  begun a →
  GenerateCode write_file sched a prompt = (a, Some AlreadyRunningError).
Proof.
  unfold GenerateCode. intros [Hb|[Hb|[Hb|Hb]]]; by rewrite Hb.
Qed.

(** From the Started state every call of [GenerateCode] begins a run,
    and leaves the agent in a terminal state. *)
Lemma GenerateCode_Started_begun sched a prompt :
  state a = Started → 0 < workerCount a →
  begun (GenerateCode write_file sched a prompt).1.
Proof.
  intros Hst HN. unfold begun.
  destruct (Resolve (catalog a) (templateName a)) as [tmpl|] eqn:Hres.
  - destruct (GenerateCode_Started sched a prompt tmpl Hst Hres HN)
      as (evs & _ & _ & _ & Hcases).
    destruct (failures a ++ omap failure_of evs); naive_solver.
  - unfold GenerateCode. rewrite Hst. cbn [set_state catalog templateName].
    rewrite Hres. cbn. auto.
Qed.

Lemma apply_ops_begun ops a :
  Forall (λ op, op ≠ OpStop) ops → begun a → begun (apply_ops write_file ops a).
Proof.
  intros Hops. revert a. induction Hops as [|op ops Hop _ IH]; intros a Hb; [done|].
  cbn. apply IH. destruct op as [|sched prompt|]; cbn.
  - unfold Start. destruct Hb as [Hb|[Hb|[Hb|Hb]]]; rewrite Hb;
      unfold begun; auto.
  - by rewrite GenerateCode_begun.
  - done.
Qed.

Lemma filter_is_start_nil evs :
  Forall (λ e, is_file_or_error e = true) evs → List.filter is_start evs = [].
Proof.
  induction 1 as [|e evs He _ IH]; [done|].
  by destruct e; cbn.
Qed.

Lemma NewAgent_inv catalog client outputDir basePackage templateName language N a :
  NewAgent catalog client outputDir basePackage templateName language N = inl a →
  reachable_inv a ∧ state a = Idle ∧ Engine.catalog a = catalog ∧
  Engine.templateName a = templateName ∧ workerCount a = Z.to_nat N ∧
  (1 ≤ N ≤ maxWorkers)%Z.
Proof.
  unfold NewAgent. case_bool_decide as HN; [|done]. intros [= <-].
  unfold reachable_inv, runs, maxWorkers in *. cbn. split_and!; try done; lia.
Qed.

(** Outside the Started state a call changes nothing. *)
Lemma GenerateCode_not_Started sched a prompt :
  state a ≠ Started → (GenerateCode write_file sched a prompt).1 = a.
Proof. unfold GenerateCode. by destruct (state a). Qed.

Lemma GenerateCode_inv sched a prompt :
  reachable_inv a → reachable_inv (GenerateCode write_file sched a prompt).1.
Proof.
  intros (HN & Hruns & Hfresh). unfold reachable_inv.
  rewrite GenerateCode_workerCount. split; [done|].
  destruct (decide (state a = Started)) as [Hst|Hst].
  - destruct (Hfresh (or_intror Hst)) as [Hem Hfl].
    destruct (Resolve (catalog a) (templateName a)) as [tmpl|] eqn:Hres.
    + destruct (GenerateCode_Started sched a prompt tmpl Hst Hres HN)
        as (evs & _ & Hkind & _ & Hcases).
      destruct (failures a ++ omap failure_of evs);
        destruct Hcases as (_ & Hev & Hstate); unfold runs;
        rewrite Hev, Hem, Hstate; cbn;
        rewrite ?List.filter_app, (filter_is_start_nil _ Hkind); cbn;
        (split; [lia | naive_solver]).
    + unfold GenerateCode. rewrite Hst. cbn [set_state catalog templateName].
      rewrite Hres. cbn. split; [done | naive_solver].
  - by rewrite GenerateCode_not_Started.
Qed.

Lemma apply_ops_inv ops a :
  reachable_inv a → reachable_inv (apply_ops write_file ops a).
Proof.
  revert a. induction ops as [|op ops IH]; intros a Ha; [done|].
  cbn. apply IH. destruct op as [|sched prompt|]; cbn.
  - unfold Start. destruct (state a) eqn:Hst; try done.
    destruct Ha as (HN & Hruns & Hfresh). repeat split; try done; cbn; naive_solver.
  - by apply GenerateCode_inv.
  - destruct Ha as (HN & Hruns & Hfresh). repeat split; try done; cbn; naive_solver.
Qed.


(** C7. After [Start()] and a first call of [GenerateCode], every
    further call of [GenerateCode] on the same agent before [Stop()],
    whatever was called in between, is rejected with AlreadyRunningError
    and changes nothing; and over its whole life an agent performs at
    most one run. *)
Theorem second_GenerateCode_rejected catalog client outputDir basePackage
    templateName language N a0 sched prompt ops sched' prompt' :
  let a1 := (GenerateCode write_file sched (Start a0) prompt).1 in
  let a2 := apply_ops write_file ops a1 in
  NewAgent catalog client outputDir basePackage templateName language N = inl a0 →
  Forall (λ op, op ≠ OpStop) ops →
  GenerateCode write_file sched' a2 prompt' = (a2, Some AlreadyRunningError) ∧
  (∀ calls, runs (apply_ops write_file calls a0) ≤ 1).
Proof.
  intros a1 a2 Hnew Hops.
  destruct (NewAgent_inv _ _ _ _ _ _ _ _ Hnew) as (Hinv & Hidle & _).
  split.
  - apply GenerateCode_begun, apply_ops_begun; [done|].
    apply GenerateCode_Started_begun.
    + unfold Start. by rewrite Hidle.
    + unfold Start. rewrite Hidle. apply Hinv.
  - intros calls. by destruct (apply_ops_inv calls a0 Hinv) as (_ & Hruns & _).
Qed.

End AgentFacts.

(** ** The worker count *)

Section WorkerCount.
Import Engine.
Variables (registry : list Template) (client : GenerationClient)
          (write_file : string → string → option error) (sched : list nat).

Lemma NewAgent_worker_count outputDir basePackage templateName language N :
  NewAgent registry client outputDir basePackage templateName language N =
  if bool_decide (1 ≤ N ≤ 8)%Z
  then inl {| generation := client; catalog := registry;
              outputRoot := outputDir; projectName := "";
              basePackage := basePackage; templateName := templateName;
              language := language; workerCount := Z.to_nat N;
              state := Idle; emitted := []; failures := []; disk := ∅ |}
  else inr (ConfigError "invalid worker count").
Proof. reflexivity. Qed.

(** C5. The worker count is validated when the agent is built, before
    anything runs: the default of the [-worker-count] flag is 4; a count
    N is accepted, and becomes the pool size, exactly when 1 <= N <= 8;
    any other value is rejected with a ConfigError, and [maker] then
    exits with 1 without starting the agent or calling [GenerateCode].
    When [maker] builds an agent at all, it does so before any other
    call. *)
Theorem worker_count_validated (OPENAI_API_KEY : string) (fl : Maker.Flags)
    outputDir basePackage templateName language (N : Z) :
  let agents := package registry client write_file sched in
  let tr := Maker.trace agents OPENAI_API_KEY fl in
  Maker.worker_count Maker.defaults = 4%Z ∧
  ((1 ≤ N ≤ 8)%Z ↔
   (∃ a, NewAgent registry client outputDir basePackage templateName language N
           = inl a ∧ workerCount a = Z.to_nat N)) ∧
  (¬ (1 ≤ N ≤ 8)%Z →
   ∃ msg, NewAgent registry client outputDir basePackage templateName language N
            = inr (ConfigError msg)) ∧
  (¬ (1 ≤ Maker.worker_count fl ≤ 8)%Z →
   Maker.exit_code agents OPENAI_API_KEY fl = 1%Z ∧
   (Maker.CallStart ∉ tr) ∧
   (∀ prompt r, Maker.CallGenerateCode prompt r ∉ tr)) ∧
  (Maker.resolve_key OPENAI_API_KEY fl ≠ None →
   head tr = Some (Maker.CallNewAgent (Maker.worker_count fl))).
Proof.
  intros agents tr. split_and!.
  - reflexivity.
  - rewrite NewAgent_worker_count. case_bool_decide as HN; split; try done.
    + intros _. by eexists.
    + by intros (a & [=] & _).
  - intros HN. rewrite NewAgent_worker_count, bool_decide_false by done.
    by eexists.
  - intros HN. subst tr agents.
    unfold Maker.exit_code, Maker.trace, Maker.main.
    destruct (Maker.resolve_key _ _); cbn [fst snd].
    + cbn [package Maker.NewAgent].
      rewrite NewAgent_worker_count, bool_decide_false by done.
      cbn [fst snd]. split_and!; [done| |intros prompt r];
        rewrite !elem_of_cons, elem_of_nil; naive_solver.
    + split_and!; [done| |intros prompt r];
        rewrite !elem_of_cons, elem_of_nil; naive_solver.
  - intros Hkey. subst tr agents. unfold Maker.trace, Maker.main.
    destruct (Maker.resolve_key _ _); [|done].
    destruct (Maker.NewAgent _ _ _ _ _ _ _ _); [|done].
    destruct (Maker.list_templates fl); [done|].
    destruct (Maker.list_languages fl); [done|].
    case_bool_decide; [done|].
    by destruct (Maker.GenerateCode _ _ _) as [? [?|]].
Qed.

End WorkerCount.

(** ** The scenario of the design document *)

Section Scenario.
Import Engine.
Open Scope list_scope.
Open Scope nat_scope.

(** Two workers on the five tasks of "go-gin", one of which fails. *)
Lemma worker_pool_results_witness :
  1 ≤ 2 ≤ length (files go_gin) ∧
  let tasks := build_tasks (scenario_agent flaky) go_gin "CRUD API for books" in
  let pool := await_drain flaky (run flaky [0; 1; 1; 0; 0] (submit 2 tasks)) in
  drained pool ∧
  length (results pool) = 5 ∧
  results pool ≡ₚ map (execute flaky) tasks ∧
  map (result_path tasks) (results pool) ≡ₚ map path (files go_gin) ∧
  (∀ t, t ∈ tasks → execute flaky t ∈ results pool) ∧
  (∀ N' sched', 1 ≤ N' ≤ 5 →
     results (await_drain flaky (run flaky sched' (submit N' tasks)))
       ≡ₚ results pool) ∧
  (∀ sched', drained (run flaky sched' (submit 2 tasks)) →
     results (run flaky sched' (submit 2 tasks)) ≡ₚ results pool).
Proof.
  split; [cbn; lia|].
  apply (worker_pool_results flaky (scenario_agent flaky) go_gin
           "CRUD API for books" 2 [0; 1; 1; 0; 0]).
  cbn; lia.
Defined.



Lemma second_GenerateCode_rejected_witness :
  NewAgent [go_gin] stub "./output" "github.com/user/app" "go-gin" "go" 2
    = inl (scenario_agent stub) ∧
  Forall (λ op, op ≠ OpStop) [OpStart] ∧
  let a1 := (GenerateCode disk_ok [1; 0] (Start (scenario_agent stub))
               "CRUD API for books").1 in
  let a2 := apply_ops disk_ok [OpStart] a1 in
  GenerateCode disk_ok [0] a2 "another" = (a2, Some AlreadyRunningError) ∧
  (∀ calls, runs (apply_ops disk_ok calls (scenario_agent stub)) ≤ 1).
Proof.
  assert (Forall (λ op, op ≠ OpStop) [OpStart]) as Hops
    by (by repeat constructor).
  split; [reflexivity|]. split; [exact Hops|].
  apply (second_GenerateCode_rejected disk_ok [go_gin] stub "./output"
           "github.com/user/app" "go-gin" "go" 2 (scenario_agent stub) [1; 0]
           "CRUD API for books" [OpStart] [0] "another");
    [reflexivity | exact Hops].
Defined.

(** What the scenario's run with the stub client emits. *)
Example scenario_emitted :
  let run := GenerateCode disk_ok [1; 1; 0] (Start (scenario_agent stub))
               "CRUD API for books" in
  emitted run.1 =
    [ EvStart 5; EvFile "main.go"; EvFile "go.mod"; EvFile "handlers/books.go";
      EvFile "models/book.go"; EvFile "README.md";
      EvComplete "generation complete" ] ∧
  run.2 = None ∧
  state run.1 = Completed.
Proof. by vm_compute. Qed.

(** With a client that fails on one file the four siblings are written,
    the last event is the fifth task's, and the call returns the
    aggregate failure. *)
Example scenario_partial_failure :
  let run := GenerateCode disk_ok [0; 1; 1; 0; 0] (Start (scenario_agent flaky))
               "CRUD API for books" in
  emitted run.1 =
    [ EvStart 5; EvFile "go.mod"; EvFile "main.go";
      EvError "handlers/books.go" (errorString "API error: rate limited");
      EvFile "models/book.go"; EvFile "README.md" ] ∧
  run.2 = Some (PartialGenerationError
                  [("handlers/books.go", errorString "API error: rate limited")]) ∧
  state run.1 = Failed_ ∧
  size (disk run.1) = 4.
Proof. by vm_compute. Qed.

End Scenario.

(** [maker -openai-key sk-test CRUD API] against a package that succeeds
    exits with 0 after calling [GenerateCode] with the joined prompt. *)
Example maker_success :
  Maker.main succeeding "" (timeout_flags 120 ["CRUD"; "API"]) =
  ([ Maker.CallNewAgent 4; Maker.CallStart;
     Maker.CallGenerateCode "CRUD API" None; Maker.Sleep 1000000000;
     Maker.CallStop;
     Maker.LogPrintln "finished writing project to ./output" ], 0%Z).
Proof. reflexivity. Qed.

(** Without a key in the flag and the environment, and with a key but
    without a prompt, the process exits with 1. *)
Example maker_no_key :
  Maker.exit_code succeeding "" Maker.defaults = 1%Z ∧
  Maker.exit_code succeeding "sk-env" Maker.defaults = 1%Z.
Proof. split; reflexivity. Qed.

(** * Further properties of the code *)

(** ** What the clients send *)

(** The six header names the clients pass to [Header.Set], and the keys
    they are stored under. *)
Lemma canonical_keys :
  CanonicalMIMEHeaderKey "Content-Type" = "Content-Type" ∧
  CanonicalMIMEHeaderKey "Authorization" = "Authorization" ∧
  CanonicalMIMEHeaderKey "X-API-Key" = "X-Api-Key" ∧
  CanonicalMIMEHeaderKey "anthropic-version" = "Anthropic-Version" ∧
  CanonicalMIMEHeaderKey "HTTP-Referer" = "Http-Referer" ∧
  CanonicalMIMEHeaderKey "X-Title" = "X-Title".
Proof. by split_and!. Qed.

(** A name with a space in it is stored as it is written. *)
Example CanonicalMIMEHeaderKey_space :
  CanonicalMIMEHeaderKey "x-api key" = "x-api key".
Proof. reflexivity. Qed.

Ltac header_lookup :=
  repeat first [ rewrite lookup_insert_eq | rewrite lookup_insert_ne by done
               | rewrite lookup_empty ];
  done.

Lemma request_of_headers a bs :
  Header (request_of a bs) =
    match kind_of a with
    | KGemini => {[ "Content-Type" := "application/json" ]}
    | KAnthropic =>
        {[ "Content-Type" := "application/json";
           "X-Api-Key" := apiKey (fields a);
           "Anthropic-Version" := "2023-06-01" ]}
    | KOpenRouter =>
        {[ "Content-Type" := "application/json";
           "Authorization" := "Bearer " +:+ apiKey (fields a);
           "Http-Referer" := "https://maker.ai";
           "X-Title" := "Maker AI" ]}
    | KOpenAI | KMistral | KOpenAICompatible =>
        {[ "Content-Type" := "application/json";
           "Authorization" := "Bearer " +:+ apiKey (fields a) ]}
    end.
Proof.
  destruct canonical_keys as (Hct & Hau & Hkey & Hver & Href & Htitle).
  destruct a as [c|c|c|c|c|c]; cbn -[CanonicalMIMEHeaderKey];
    rewrite ?Hct, ?Hau, ?Hkey, ?Hver, ?Href, ?Htitle;
    clear Hct Hau Hkey Hver Href Htitle;
    rewrite <- ?insert_empty; apply map_eq; intros k;
    try (destruct (decide (k = "Content-Type")) as [->|]; [header_lookup|]);
    try (destruct (decide (k = "Authorization")) as [->|]; [header_lookup|]);
    try (destruct (decide (k = "X-Api-Key")) as [->|]; [header_lookup|]);
    try (destruct (decide (k = "Anthropic-Version")) as [->|]; [header_lookup|]);
    try (destruct (decide (k = "Http-Referer")) as [->|]; [header_lookup|]);
    try (destruct (decide (k = "X-Title")) as [->|]; [header_lookup|]);
    header_lookup.
Qed.

(** Once the payload is marshalled and the request can be built, a call
    of [Query] calls [Do] once, with one request, and what comes back is
    all that decides the result.  The request is a POST of the marshalled
    payload; except for Gemini the URL is the client's base URL as it is.
    Its header holds what the calls of [Header.Set] leave there, under
    the canonical keys: the content type for every client; the API key as
    a bearer token under [Authorization] for the OpenAI, Mistral,
    OpenRouter and OpenAI-compatible clients, under [X-Api-Key] (which is
    what [Set] makes of "X-API-Key") for Anthropic, and in no header for
    Gemini; [Anthropic-Version] for Anthropic; [Http-Referer] and
    [X-Title] for OpenRouter.  No entry is stored under "X-API-Key" as
    the source spells it. *)
Theorem Query_request w a systemPrompt prompt bs hc :
  json_Marshal w (JObject (payload_of a systemPrompt prompt)) = Done bs →
  ctx (fields a) = Background →
  url_Parse w (url_of a) = None →
  httpClient (fields a) = Some hc →
  Query w a systemPrompt prompt = receive w a (RoundTrip w hc (request_of a bs)) ∧
  Method (request_of a bs) = "POST" ∧
  Body (request_of a bs) = bs ∧
  (kind_of a ≠ KGemini → URL (request_of a bs) = baseURL (fields a)) ∧
  Header (request_of a bs) =
    match kind_of a with
    | KGemini => {[ "Content-Type" := "application/json" ]}
    | KAnthropic =>
        {[ "Content-Type" := "application/json";
           "X-Api-Key" := apiKey (fields a);
           "Anthropic-Version" := "2023-06-01" ]}
    | KOpenRouter =>
        {[ "Content-Type" := "application/json";
           "Authorization" := "Bearer " +:+ apiKey (fields a);
           "Http-Referer" := "https://maker.ai";
           "X-Title" := "Maker AI" ]}
    | KOpenAI | KMistral | KOpenAICompatible =>
        {[ "Content-Type" := "application/json";
           "Authorization" := "Bearer " +:+ apiKey (fields a) ]}
    end ∧
  Header (request_of a bs) !! "X-API-Key" = None.
Proof.
  intros Hm Hctx Hurl Hhc.
  pose proof (request_of_headers a bs) as Hh.
  split_and!; try done.
  - by apply Query_round_trip.
  - by destruct a.
  - apply request_of_Body.
  - by destruct a.
  - rewrite Hh. destruct a; cbn; rewrite <- ?insert_empty; header_lookup.
Qed.

Lemma Query_request_witness :
  Query silent demo_client "" "hello" =
    receive silent demo_client
      (RoundTrip silent {| Timeout := 120000000000 |} (request_of demo_client "{}")) ∧
  Header (request_of demo_client "{}") =
    {[ "Content-Type" := "application/json";
       "Authorization" := "Bearer sk-test" ]}.
Proof.
  destruct (Query_request silent demo_client "" "hello" "{}"
              {| Timeout := 120000000000 |} eq_refl eq_refl eq_refl eq_refl)
    as (HQ & _ & _ & _ & Hh & _).
  split; [exact HQ | exact Hh].
Defined.

(** A call that fails before the request is sent never reaches the
    transport: a marshalling error is returned as it is, a nil context or
    a URL that does not parse as "error creating request: ...", with any
    transport, and also with a nil HTTP client. *)
Theorem Query_nothing_sent w a systemPrompt prompt :
  (∀ err, json_Marshal w (JObject (payload_of a systemPrompt prompt)) = Failed err →
          ∀ rt, Query (with_transport rt w) a systemPrompt prompt = Err err) ∧
  (∀ bs, json_Marshal w (JObject (payload_of a systemPrompt prompt)) = Done bs →
         ctx (fields a) = nilContext →
         ∀ rt, Query (with_transport rt w) a systemPrompt prompt =
               Err (Errorf_w "error creating request: "
                      (errorString "net/http: nil Context"))) ∧
  (∀ bs err, json_Marshal w (JObject (payload_of a systemPrompt prompt)) = Done bs →
             ctx (fields a) = Background →
             url_Parse w (url_of a) = Some err →
             ∀ rt, Query (with_transport rt w) a systemPrompt prompt =
                   Err (Errorf_w "error creating request: " err)).
Proof.
  split_and!.
  - intros err Hm rt.
    destruct a as [c|c|c|c|c|c]; cbn in *;
      unfold OpenAIClient_Query, GeminiClient_Query, AnthropicClient_Query,
        MistralClient_Query, OpenRouterClient_Query, OpenAICompatibleClient_Query;
      cbn; by rewrite Hm.
  - intros bs Hm Hctx rt.
    destruct a as [c|c|c|c|c|c]; cbn in *;
      unfold OpenAIClient_Query, GeminiClient_Query, AnthropicClient_Query,
        MistralClient_Query, OpenRouterClient_Query, OpenAICompatibleClient_Query,
        http_NewRequestWithContext;
      cbn; by rewrite Hm, Hctx.
  - intros bs err Hm Hctx Hurl rt.
    destruct a as [c|c|c|c|c|c]; cbn in *;
      unfold OpenAIClient_Query, GeminiClient_Query, AnthropicClient_Query,
        MistralClient_Query, OpenRouterClient_Query, OpenAICompatibleClient_Query,
        http_NewRequestWithContext;
      cbn; rewrite Hm, Hctx; cbn; by rewrite Hurl.
Qed.

(** An error object in the response wins over everything else in it:
    the call fails with "API error: " and the object's message, also when
    the response carries choices. *)
Theorem Query_error_object_first w a systemPrompt prompt d e :
  exchange w a systemPrompt prompt = Ok d →
  error_object d = Some e →
  Query w a systemPrompt prompt = Err (errorString ("API error: " +:+ err_Message e)).
Proof.
  intros Hx He. rewrite Query_exchange, Hx. cbn.
  destruct d as [r|r|r]; cbn in *;
    unfold chat_result, gemini_result, anthropic_result; by rewrite He.
Qed.

Lemma Query_error_object_first_witness :
  let both := {| Choices := [ {| Message := {| Content := "partial text" |} |} ];
                 chat_Error := Some {| err_Message := "overloaded" |} |} in
  let w := provider 200 both {| Candidates := []; gemini_Error := None |}
             {| anthropic_Content := []; anthropic_Error := None |} in
  exchange w demo_client "" "hello" = Ok (DChat both) ∧
  Query w demo_client "" "hello" = Err (errorString "API error: overloaded").
Proof.
  intros both w. split; [reflexivity|].
  exact (Query_error_object_first w demo_client "" "hello" (DChat both)
           {| err_Message := "overloaded" |} eq_refl eq_refl).
Defined.

(** ** The clients compared *)

Lemma compatible_endpoint useCustomBaseURL baseURL0 :
  (if negb useCustomBaseURL || bool_decide (baseURL0 = "")
   then "https://api.openai.com/v1/chat/completions" else baseURL0) =
  endpoint_or useCustomBaseURL baseURL0 "https://api.openai.com/v1/chat/completions".
Proof.
  unfold endpoint_or. destruct useCustomBaseURL; cbn; [|done].
  by repeat case_bool_decide.
Qed.

(** A provider name [NewAPIClient] does not know gives a client that is
    the "openai" client in all but its struct type: the same fields, the
    same endpoint, and the same result of every call, whatever the
    provider answers. *)
Theorem unknown_provider_as_openai ctx provider apiKey0 model0 useCustomBaseURL
    baseURL0 hc w systemPrompt prompt :
  provider ∉ ["gemini"; "openai"; ""; "anthropic"; "mistral"; "openrouter"] →
  ∃ a b,
    NewAPIClient ctx provider apiKey0 model0 useCustomBaseURL baseURL0 hc
      = (Some a, None) ∧
    NewAPIClient ctx "openai" apiKey0 model0 useCustomBaseURL baseURL0 hc
      = (Some b, None) ∧
    kind_of a = KOpenAICompatible ∧ kind_of b = KOpenAI ∧
    fields a = fields b ∧
    Query w a systemPrompt prompt = Query w b systemPrompt prompt.
Proof.
  intros Hp. rewrite !not_elem_of_cons in Hp. destruct_and!.
  unfold NewAPIClient.
  rewrite !(bool_decide_false (provider = _)) by done. cbn.
  eexists _, _. split_and!; try reflexivity.
  - cbn. unfold NewOpenAICompatibleClient, NewOpenAIClient.
    by rewrite compatible_endpoint.
  - cbn. unfold NewOpenAICompatibleClient, NewOpenAIClient.
    by rewrite compatible_endpoint.
Qed.

Lemma unknown_provider_as_openai_witness :
  ("deepseek" ∉ ["gemini"; "openai"; ""; "anthropic"; "mistral"; "openrouter"]) ∧
  ∃ a b,
    NewAPIClient Background "deepseek" "sk-test" "deepseek-chat" false "" None
      = (Some a, None) ∧
    NewAPIClient Background "openai" "sk-test" "deepseek-chat" false "" None
      = (Some b, None) ∧
    kind_of a = KOpenAICompatible ∧ kind_of b = KOpenAI ∧
    fields a = fields b ∧
    Query silent a "" "hello" = Query silent b "" "hello".
Proof.
  assert ("deepseek" ∉ ["gemini"; "openai"; ""; "anthropic"; "mistral"; "openrouter"])
    as Hp by (rewrite !not_elem_of_cons; split_and!; try done; apply not_elem_of_nil).
  split; [exact Hp|].
  exact (unknown_provider_as_openai Background "deepseek" "sk-test" "deepseek-chat"
           false "" None silent "" "hello" Hp).
Defined.

(** With a system prompt that is not empty the Mistral client is the
    OpenAI client: the same payload, the same request, the same result.
    They part on the empty system prompt, where Mistral (and OpenRouter)
    send the user message alone and OpenAI adds its default system
    message. *)
Theorem Mistral_as_OpenAI w c systemPrompt prompt :
  systemPrompt ≠ "" →
  MistralClient_payload c systemPrompt prompt =
    OpenAIClient_payload c systemPrompt prompt ∧
  Query w (MistralClient c) systemPrompt prompt =
    Query w (OpenAIClient c) systemPrompt prompt ∧
  MistralClient_payload c "" prompt !! "messages" =
    Some (JArray [ message "user" prompt ]) ∧
  OpenAIClient_payload c "" prompt !! "messages" =
    Some (JArray [ message "system" "You are a helpful assistant.";
                   message "user" prompt ]).
Proof.
  intros Hne.
  assert (MistralClient_payload c systemPrompt prompt =
          OpenAIClient_payload c systemPrompt prompt) as Hpay.
  { unfold MistralClient_payload, MistralClient_messages, OpenAIClient_payload.
    by rewrite bool_decide_true, bool_decide_false by done. }
  split_and!.
  - exact Hpay.
  - cbn. unfold MistralClient_Query, OpenAIClient_Query. by rewrite Hpay.
  - unfold MistralClient_payload. by simplify_map_eq.
  - by rewrite OpenAIClient_payload_messages.
Qed.

Lemma Mistral_as_OpenAI_witness :
  "Answer in Go." ≠ "" ∧
  Query silent (MistralClient (fields demo_client)) "Answer in Go." "hello" =
    Query silent (OpenAIClient (fields demo_client)) "Answer in Go." "hello".
Proof.
  split; [done|].
  apply (Mistral_as_OpenAI silent (fields demo_client) "Answer in Go." "hello").
  done.
Defined.

(** ** The URL of the Gemini client *)

Lemma chars_app s1 s2 : chars (s1 +:+ s2) = (chars s1 ++ chars s2)%list.
Proof.
  induction s1 as [|ch s1 IH]; [reflexivity|].
  change (String ch s1 +:+ s2) with (String ch (s1 +:+ s2)).
  cbn [chars app]. by f_equal.
Qed.

Lemma append_assoc s1 s2 s3 : (s1 +:+ s2) +:+ s3 = s1 +:+ s2 +:+ s3.
Proof.
  induction s1 as [|ch s1 IH]; [reflexivity|].
  change ((String ch s1 +:+ s2) +:+ s3) with (String ch ((s1 +:+ s2) +:+ s3)).
  change (String ch s1 +:+ s2 +:+ s3) with (String ch (s1 +:+ s2 +:+ s3)).
  by f_equal.
Qed.

Lemma prefix_empty s : String.prefix "" s = true.
Proof. by destruct s. Qed.

(** [strings.Contains] with a needle of one character looks for that
    character. *)
Lemma strings_Contains_char s ch :
  strings_Contains s (String ch "") = bool_decide (ch ∈ chars s).
Proof.
  induction s as [|x s IH]; cbn.
  - symmetry. apply bool_decide_false, not_elem_of_nil.
  - rewrite IH. destruct (ascii_dec ch x) as [->|Hne].
    + rewrite prefix_empty. cbn. symmetry. apply bool_decide_true.
      rewrite elem_of_cons. by left.
    + cbn. apply bool_decide_ext. rewrite elem_of_cons. naive_solver.
Qed.

(** The Gemini client appends the API key to its base URL as the query
    parameter [key], after "&" when the base URL has a "?" somewhere and
    after "?" otherwise.  With the default endpoint that is "?" unless
    the model name itself has a "?" in it. *)
Theorem GeminiClient_url_key ctx0 apiKey0 model0 hc :
  let c := NewGeminiClient ctx0 apiKey0 model0 false "" hc in
  (∀ c', GeminiClient_url c' =
         baseURL c' +:+
         (if bool_decide ("?"%char ∈ chars (baseURL c')) then "&" else "?") +:+
         "key=" +:+ apiKey c') ∧
  ("?"%char ∉ chars model0 →
   GeminiClient_url c =
     "https://generativelanguage.googleapis.com/v1/models/" +:+ model0
       +:+ ":generateContent" +:+ "?key=" +:+ apiKey0) ∧
  ("?"%char ∈ chars model0 →
   GeminiClient_url c =
     "https://generativelanguage.googleapis.com/v1/models/" +:+ model0
       +:+ ":generateContent" +:+ "&key=" +:+ apiKey0).
Proof.
  intros c.
  assert (∀ c', GeminiClient_url c' =
            baseURL c' +:+
            (if bool_decide ("?"%char ∈ chars (baseURL c')) then "&" else "?") +:+
            "key=" +:+ apiKey c') as Hsep.
  { intros c'. unfold GeminiClient_url.
    rewrite (strings_Contains_char (baseURL c') "?"%char).
    by case_bool_decide. }
  assert ("?"%char ∈ chars (baseURL c) ↔ "?"%char ∈ chars model0) as Hq.
  { subst c. cbn. rewrite !chars_app, !elem_of_app. cbn.
    rewrite !elem_of_cons, elem_of_nil. split; [|tauto].
    intros [H|[H|H]]; [|done|]; exfalso; destruct_or!; done. }
  split_and!.
  - exact Hsep.
  - intros Hno. rewrite Hsep, bool_decide_false by (by rewrite Hq).
    subst c. cbn. by rewrite !append_assoc.
  - intros Hyes. rewrite Hsep, bool_decide_true by (by rewrite Hq).
    subst c. cbn. by rewrite !append_assoc.
Qed.

(** ** More of [maker] *)

Section MakerFacts.
Context {Agent OpenAI : Type} (agents : Maker.AgentsPackage Agent OpenAI).
Variables (OPENAI_API_KEY : string) (fl : Maker.Flags).
Open Scope list_scope.

(** Whenever [maker] starts the agent, it calls [GenerateCode] exactly
    once, right after [Start], with the positional words joined by
    single spaces, and it stops the agent afterwards, when the call
    fails as when it succeeds; and it never stops an agent it did not
    start. *)
Theorem main_started_agent_is_stopped :
  let tr := Maker.trace agents OPENAI_API_KEY fl in
  (Maker.CallStart ∈ tr ∨ Maker.CallStop ∈ tr →
   ∃ r mid post,
     tr = [ Maker.CallNewAgent (Maker.worker_count fl); Maker.CallStart;
            Maker.CallGenerateCode (strings_Join (Maker.args fl) " ") r ]
          ++ mid ++ Maker.CallStop :: post ∧
     Forall quiet mid ∧ Forall quiet post ∧
     Maker.exit_code agents OPENAI_API_KEY fl =
       match r with Some _ => 1%Z | None => 0%Z end).
Proof.
  intros tr. subst tr. unfold Maker.trace, Maker.exit_code, Maker.main.
  destruct (Maker.resolve_key _ _); cbn [fst snd];
    [|rewrite !elem_of_cons, !elem_of_nil; naive_solver].
  destruct (Maker.NewAgent _ _ _ _ _ _ _ _); cbn [fst snd];
    [|rewrite !elem_of_cons, !elem_of_nil; naive_solver].
  destruct (Maker.list_templates fl); cbn [fst snd].
  { rewrite !elem_of_cons, !list_elem_of_In, !in_map_iff.
    intros [[[=]|[[=]|([[??]?] & [=] & _)]]|[[=]|[[=]|([[??]?] & [=] & _)]]]. }
  destruct (Maker.list_languages fl); cbn [fst snd].
  { rewrite !elem_of_cons, !list_elem_of_In, !in_map_iff.
    intros [[[=]|[[=]|(? & [=] & _)]]|[[=]|[[=]|(? & [=] & _)]]]. }
  case_bool_decide; cbn [fst snd];
    [rewrite !elem_of_cons, !elem_of_nil; naive_solver|].
  destruct (Maker.GenerateCode _ _ _) as [a' [err|]]; cbn [fst snd]; intros _.
  - exists (Some err), [Maker.LogPrintln ("error writing code: " +:+ Error err)], [].
    split_and!; [done| | |done]; by repeat constructor.
  - exists None, [Maker.Sleep (1 * Second)],
      [Maker.LogPrintln ("finished writing project to " +:+ Maker.output_dir fl)].
    split_and!; [done| | |done]; by repeat constructor.
Qed.

(** With a key and an agent, [-list-templates] and [-list-languages]
    print their heading and one line per entry and exit with 0, whatever
    positional words are given; the agent is never started; and
    [-list-templates] wins when both flags are set. *)
Theorem main_listing key agent :
  let tr := Maker.trace agents OPENAI_API_KEY fl in
  Maker.resolve_key OPENAI_API_KEY fl = Some key →
  Maker.NewAgent agents Background
    (Maker.NewOpenAI agents Background key (Maker.model_name fl)
       (Maker.main_httpClient fl))
    (Maker.output_dir fl) (Maker.base_package fl) (Maker.template fl)
    (Maker.language fl) (Maker.worker_count fl) = Done agent →
  Maker.list_templates fl = true ∨ Maker.list_languages fl = true →
  Maker.exit_code agents OPENAI_API_KEY fl = 0%Z ∧
  (Maker.CallStart ∉ tr) ∧
  (∀ prompt r, Maker.CallGenerateCode prompt r ∉ tr) ∧
  tr !! 1%nat =
    Some (Maker.Println (if Maker.list_templates fl then "Available templates:"
                         else "Supported languages:")) ∧
  length tr =
    (2 + if Maker.list_templates fl
         then length (Maker.ListTemplates agents agent)
         else length (Maker.ListLanguages agents agent))%nat.
Proof.
  intros tr Hkey Hnew Hlist. subst tr.
  unfold Maker.trace, Maker.exit_code, Maker.main. rewrite Hkey, Hnew.
  destruct (Maker.list_templates fl); cbn [fst snd].
  - split_and!; [done| | |done|by cbn; rewrite length_map].
    + rewrite !elem_of_cons, list_elem_of_In, in_map_iff.
      intros [[=]|[[=]|([[??]?] & [=] & _)]].
    + intros prompt r. rewrite !elem_of_cons, list_elem_of_In, in_map_iff.
      intros [[=]|[[=]|([[??]?] & [=] & _)]].
  - destruct Hlist as [[=]| ->]. cbn [fst snd].
    split_and!; [done| | |done|by cbn; rewrite length_map].
    + rewrite !elem_of_cons, list_elem_of_In, in_map_iff.
      intros [[=]|[[=]|(? & [=] & _)]].
    + intros prompt r. rewrite !elem_of_cons, list_elem_of_In, in_map_iff.
      intros [[=]|[[=]|(? & [=] & _)]].
Qed.

End MakerFacts.

Lemma main_started_agent_is_stopped_witness :
  let tr := Maker.trace failing "" (timeout_flags 120 ["CRUD"; "API"]) in
  (Maker.CallStart ∈ tr ∨ Maker.CallStop ∈ tr) ∧
  ∃ r mid post,
    tr = ([ Maker.CallNewAgent 4; Maker.CallStart;
            Maker.CallGenerateCode "CRUD API" r ]
          ++ mid ++ Maker.CallStop :: post)%list ∧
    Forall quiet mid ∧ Forall quiet post ∧
    Maker.exit_code failing "" (timeout_flags 120 ["CRUD"; "API"]) =
      match r with Some _ => 1%Z | None => 0%Z end.
Proof.
  intros tr.
  assert (Maker.CallStart ∈ tr ∨ Maker.CallStop ∈ tr) as Hin.
  { left. subst tr. apply (list_elem_of_lookup_2 _ 1%nat). reflexivity. }
  split; [exact Hin|].
  exact (main_started_agent_is_stopped failing "" (timeout_flags 120 ["CRUD"; "API"]) Hin).
Defined.

Lemma main_listing_witness :
  Maker.resolve_key "" listing_flags = Some "sk-test" ∧
  Maker.exit_code failing "" listing_flags = 0%Z ∧
  length (Maker.trace failing "" listing_flags) = 4%nat.
Proof.
  split; [reflexivity|].
  destruct (main_listing failing "" listing_flags "sk-test" tt eq_refl eq_refl
              (or_introl eq_refl)) as (Hexit & _ & _ & _ & Hlen).
  split; [exact Hexit | exact Hlen].
Defined.

(** A [-timeout] of zero or less gives an HTTP client without a deadline:
    the value is used as it is, and [net/http] reads a timeout that is
    not positive as none. *)
Theorem main_httpClient_no_deadline (fl : Maker.Flags) :
  (-9223372036 ≤ Maker.timeout fl ≤ 0)%Z →
  Timeout (Maker.main_httpClient fl) = (Maker.timeout fl * Second)%Z ∧
  deadline (Maker.main_httpClient fl) = None.
Proof.
  intros Ht. unfold Maker.main_httpClient, deadline, Second in *. cbn [Timeout].
  rewrite (wrap64_small (Maker.timeout fl)) by lia.
  rewrite wrap64_small by lia.
  split; [done|]. by rewrite bool_decide_false by lia.
Qed.

Lemma main_httpClient_no_deadline_witness :
  (-9223372036 ≤ Maker.timeout (timeout_flags (-30) ["hello"]) ≤ 0)%Z ∧
  deadline (Maker.main_httpClient (timeout_flags (-30) ["hello"])) = None.
Proof.
  split; [by compute|].
  apply (main_httpClient_no_deadline (timeout_flags (-30) ["hello"])).
  by compute.
Defined.

(** ** The web server's [main] *)

Section ServerFacts.
Variables (OPENAI_API_KEY : string) (listen : string → option error)
          (fl : Server.Flags).
Open Scope list_scope.


End ServerFacts.

(** The server and [maker] settle on the API key in the same way: the
    value of [-openai-key] when it is given and not empty, and otherwise
    the environment variable, if that is not empty. *)
Theorem server_key_as_maker OPENAI_API_KEY (sfl : Server.Flags) (mfl : Maker.Flags) :
  Maker.openai_key mfl = default "" (Server.openai_key sfl) →
  Server.resolve_key OPENAI_API_KEY sfl = Maker.resolve_key OPENAI_API_KEY mfl ∧
  (∀ key, Server.resolve_key OPENAI_API_KEY sfl = Some key ↔
          key ≠ "" ∧
          (Server.openai_key sfl = Some key ∨
           (default "" (Server.openai_key sfl) = "" ∧ OPENAI_API_KEY = key))).
Proof.
  intros Hk. unfold Server.resolve_key, Maker.resolve_key, Server.flag_value.
  rewrite Hk. destruct (Server.openai_key sfl) as [given|]; cbn.
  - split; [done|]. intros key. repeat case_bool_decide; naive_solver.
  - split.
    + by repeat case_bool_decide.
    + intros key. repeat case_bool_decide; naive_solver.
Qed.

Lemma server_key_as_maker_witness :
  Maker.openai_key Maker.defaults = default "" (Server.openai_key Server.defaults) ∧
  Server.resolve_key "sk-env" Server.defaults = Maker.resolve_key "sk-env" Maker.defaults.
Proof.
  split; [reflexivity|].
  exact (proj1 (server_key_as_maker "sk-env" Server.defaults Maker.defaults eq_refl)).
Defined.

(** ** The page's script *)

Section PageFacts.
Import Page.
Open Scope list_scope.

Ltac frame_cases :=
  unfold onmessage, has_type; repeat case_bool_decide; cbn; try done; try congruence.

Lemma handle_download d e :
  downloadSection_hidden (handle d e) =
  downloadSection_hidden d && negb (has_type "complete" e).
Proof.
  destruct e as [|[data|]| |]; cbn; rewrite ?andb_true_r; try done.
  frame_cases; by rewrite ?andb_true_r, ?andb_false_r.
Qed.

Lemma handle_button d e :
  generateBtn_disabled (handle d e) = generateBtn_disabled d && negb (ends_wait e) ∧
  generateBtn_innerText (handle d e) =
    if ends_wait e then "Generate Code" else generateBtn_innerText d.
Proof.
  destruct e as [|[data|]| |]; cbn; rewrite ?andb_true_r, ?andb_false_r; try done.
  frame_cases; by rewrite ?andb_true_r, ?andb_false_r.
Qed.

Lemma handle_console d e :
  length (console (handle d e)) =
  (length (console d) + if logs_line e then 1 else 0)%nat.
Proof.
  destruct e as [|[data|]| |]; cbn; rewrite ?length_app; cbn; try lia.
  frame_cases; rewrite ?length_app; cbn; lia.
Qed.

Lemma handle_href d e :
  has_type "complete" e = false →
  downloadLink_href (handle d e) = downloadLink_href d.
Proof.
  destruct e as [|[data|]| |]; cbn; try done. frame_cases.
Qed.

Lemma foldl_handle_href d events :
  existsb (has_type "complete") events = false →
  downloadLink_href (foldl handle d events) = downloadLink_href d.
Proof.
  revert d. induction events as [|e events IH]; intros d; [done|].
  cbn. intros [He Hes]%orb_false_elim. by rewrite IH, handle_href.
Qed.

(** After a click on the button the download section is shown exactly
    when a [complete] frame has arrived, whatever else the socket
    delivered and in whatever order; the link then points to the
    [zipUrl] of the last such frame. *)
Theorem download_only_on_complete d events :
  downloadSection_hidden (generation d events) =
    negb (existsb (has_type "complete") events) ∧
  (∀ pre post msg f err url,
     events = pre ++ frame "complete" msg f err url :: post →
     existsb (has_type "complete") post = false →
     downloadLink_href (generation d events) = String_ url).
Proof.
  unfold generation. split.
  - change (negb (existsb (has_type "complete") events))
      with (downloadSection_hidden (startGeneration d)
            && negb (existsb (has_type "complete") events)).
    generalize (startGeneration d). clear d.
    induction events as [|e events IH]; intros d; cbn; [by rewrite andb_true_r|].
    rewrite IH, handle_download, negb_orb. by rewrite andb_assoc.
  - intros pre post msg f err url -> Hpost.
    rewrite foldl_app. cbn [foldl]. by rewrite foldl_handle_href.
Qed.

(** After a click the button stays disabled, reading "Generating...",
    until an [error] frame, a [complete] frame or a socket error arrives;
    the first of these gives it back, reading "Generate Code", and
    nothing that follows takes it away again: one [error] frame enables
    the button while the frames of the other files are still to come. *)
Theorem button_back_on_first_end d events :
  generateBtn_disabled (generation d events) = negb (existsb ends_wait events) ∧
  generateBtn_innerText (generation d events) =
    if existsb ends_wait events then "Generate Code" else "Generating...".
Proof.
  unfold generation.
  assert (∀ d0,
    generateBtn_disabled (foldl handle d0 events)
      = generateBtn_disabled d0 && negb (existsb ends_wait events) ∧
    generateBtn_innerText (foldl handle d0 events)
      = if existsb ends_wait events then "Generate Code"
        else generateBtn_innerText d0) as Hgen.
  { induction events as [|e events IH]; intros d0; cbn;
      [by rewrite andb_true_r|].
    destruct (IH (handle d0 e)) as [-> ->].
    destruct (handle_button d0 e) as [-> ->].
    rewrite negb_orb, andb_assoc. split; [done|].
    by destruct (ends_wait e), (existsb ends_wait events). }
  destruct (Hgen (startGeneration d)) as [-> ->]. done.
Qed.

(** A click clears the console, and then every socket event writes
    exactly one line, except a frame that is not an object or whose type
    the switch has no case for, which writes none. *)
Theorem console_lines d events :
  length (console (generation d events)) = length (List.filter logs_line events).
Proof.
  unfold generation.
  change (length (List.filter logs_line events))
    with (length (console (startGeneration d)) + length (List.filter logs_line events))%nat.
  generalize (startGeneration d). clear d.
  induction events as [|e events IH]; intros d; cbn; [lia|].
  rewrite IH, handle_console. destruct (logs_line e); cbn; lia.
Qed.

Lemma handle_file_frame d f :
  handle d (frame "file" undefined (str f) undefined undefined) =
  log "info" ("Writing file: " +:+ f) d.
Proof. reflexivity. Qed.

Lemma foldl_file_frames d files :
  foldl handle d
    (map (λ f, frame "file" undefined (str f) undefined undefined) files) =
  {| resultSection_hidden := resultSection_hidden d;
     console := console d ++
       map (λ f, {| class := "info"; innerText := "Writing file: " +:+ f |}) files;
     downloadSection_hidden := downloadSection_hidden d;
     downloadLink_href := downloadLink_href d;
     generateBtn_disabled := generateBtn_disabled d;
     generateBtn_innerText := generateBtn_innerText d |}.
Proof.
  revert d. induction files as [|f files IH]; intros d.
  - cbn. rewrite app_nil_r. by destruct d.
  - cbn [map foldl]. rewrite IH, handle_file_frame. cbn.
    by rewrite <- app_assoc.
Qed.

(** A whole successful run as the page shows it: after [start], one
    [file] frame per file and [complete], the console holds the line of
    the connection, the start message, one "Writing file: ..." line per
    file in the order of arrival, the final message and the line of the
    closed connection; the download link is shown with the frame's
    [zipUrl] and the button is enabled again. *)
Theorem successful_run_on_page d started files summary url :
  generation d
    ([ Open; frame "start" (str started) undefined undefined undefined ]
     ++ map (λ f, frame "file" undefined (str f) undefined undefined) files
     ++ [ frame "complete" (str summary) undefined undefined (str url); Close ]) =
  {| resultSection_hidden := false;
     console :=
       [ {| class := "info";
            innerText := "Connected to server. Starting code generation..." |};
         {| class := "info"; innerText := started |} ]
       ++ map (λ f, {| class := "info"; innerText := "Writing file: " +:+ f |}) files
       ++ [ {| class := "success"; innerText := summary |};
            {| class := "info"; innerText := "Connection closed" |} ];
     downloadSection_hidden := false;
     downloadLink_href := url;
     generateBtn_disabled := false;
     generateBtn_innerText := "Generate Code" |}.
Proof.
  unfold generation. rewrite !foldl_app, foldl_file_frames.
  assert (∀ x, foldl handle x
            [ frame "complete" (str summary) undefined undefined (str url); Close ] =
          {| resultSection_hidden := resultSection_hidden x;
             console := console x ++
               [ {| class := "success"; innerText := summary |};
                 {| class := "info"; innerText := "Connection closed" |} ];
             downloadSection_hidden := false;
             downloadLink_href := url;
             generateBtn_disabled := false;
             generateBtn_innerText := "Generate Code" |}) as Hend.
  { intros x. cbn [foldl].
    change (handle x (frame "complete" (str summary) undefined undefined (str url)))
      with (enable_button (show_download url (log "success" summary x))).
    cbn. unfold onclose, log. cbn. by rewrite <- app_assoc. }
  rewrite Hend. cbn [resultSection_hidden console].
  f_equal.
Qed.

(** The project name the page sends is never empty: the field's value,
    or, when that is empty, the language with "-project" appended. *)
Theorem request_projectName parseInt (f : Form) :
  projectName (request parseInt f) ≠ "" ∧
  (project_name_value f ≠ "" →
   projectName (request parseInt f) = project_name_value f) ∧
  (project_name_value f = "" →
   projectName (request parseInt f) = language_value f +:+ "-project").
Proof.
  unfold request. cbn. case_bool_decide as Hp; split_and!; try done.
  destruct (language_value f); discriminate.
Qed.

End PageFacts.
